(** * Tomato growth-stage classifier: inference pipeline and dataset cleanup

    A shallow embedding of [app.py] (the Gradio callback
    [predict_growth_stage]), [predict.py] ([preprocess_image],
    [predict_stage]) and [cleanup.py] ([cleanup_corrupt_images]).

    Conventions.
    - A Python float (and a numpy float32) is an exact rational [Q]; NaN and
      rounding are outside the model.
    - A Python exception is a value of [exn]; every constructor stands for a
      subclass of [Exception], which is what the handlers of the source
      catch.  Interrupts of the process ([KeyboardInterrupt], [SystemExit])
      are not values a callee fails with and are not modelled.
    - Calls that leave the program (opening an image file, the forward pass
      of the network, printing) are recorded in a trace, so that "is never
      invoked" is a statement about the trace. *)

From Stdlib Require Import List String Ascii Strings.Byte Bool Arith ZArith NArith.
From Stdlib Require Import QArith Qabs Qround Lia DecimalString.
Import ListNotations.

Close Scope Q_scope.
Open Scope string_scope.

(* ===================================================================== *)
(** ** The Python runtime: exceptions, results, traced calls             *)
(* ===================================================================== *)

Module Py.

(** Instances of [Exception] that the modelled code can meet. *)
Inductive exn : Type :=
| FileNotFoundError (msg : string)
| UnidentifiedImageError (msg : string)
| ValueError (msg : string)
| IndexError (msg : string)
| KeyError (key : nat)
| OtherException (cls msg : string).

(** What the interpreter itself contributes to the text of a result:
    [format(x, '.1f')], [str(x)] of a float, [repr] of a numpy integer
    (the text of a [KeyError]) and [str] of a 1-d float array. *)
Record formatting : Type := {
  fmt_1f : Q -> string;
  fmt_float : Q -> string;
  repr_index : nat -> string;
  fmt_array : list Q -> string
}.

(** [str(e)]. *)
Definition str (F : formatting) (e : exn) : string :=
  match e with
  | FileNotFoundError m => m
  | UnidentifiedImageError m => m
  | ValueError m => m
  | IndexError m => m
  | KeyError k => repr_index F k
  | OtherException _ m => m
  end.

Definition str_of_nat (n : nat) : string :=
  NilEmpty.string_of_uint (Nat.to_uint n).

Definition nl : string := String (ascii_of_nat 10) EmptyString.

Inductive outcome (A : Type) : Type :=
| Val (a : A)
| Raise (e : exn).
Arguments Val {A} a.
Arguments Raise {A} e.

Section Traced.
(** The calls that are observed. *)
Variable event : Type.

(** A computation that may raise and that appends to the trace. *)
Definition M (A : Type) : Type := list event -> outcome A * list event.

Definition ret {A} (a : A) : M A := fun tr => (Val a, tr).

Definition raise {A} (e : exn) : M A := fun tr => (Raise e, tr).

Definition bind {A B} (m : M A) (k : A -> M B) : M B :=
  fun tr =>
    match m tr with
    | (Val a, tr') => k a tr'
    | (Raise e, tr') => (Raise e, tr')
    end.

(** An observed call: the event is logged, then the callee's answer
    (a value or an exception) is delivered. *)
Definition call {A} (ev : event) (answer : exn + A) : M A :=
  fun tr =>
    match answer with
    | inr a => (Val a, (tr ++ [ev])%list)
    | inl e => (Raise e, (tr ++ [ev])%list)
    end.

(** [try: body  except Exception as e: handler e]. *)
Definition try_except {A} (body : M A) (handler : exn -> M A) : M A :=
  fun tr =>
    match body tr with
    | (Val a, tr') => (Val a, tr')
    | (Raise e, tr') => handler e tr'
    end.

Definition run {A} (m : M A) : outcome A * list event := m [].
End Traced.

Arguments ret {event A} a.
Arguments raise {event A} e.
Arguments bind {event A B} m k.
Arguments call {event A} ev answer.
Arguments try_except {event A} body handler.
Arguments run {event A} m.

(** A [dict] literal, in insertion order; keys are distinct. *)
Definition dict (V : Type) : Type := list (nat * V).

Fixpoint dict_get {V} (d : dict V) (k : nat) : option V :=
  match d with
  | [] => None
  | (k', v) :: d' => if Nat.eqb k' k then Some v else dict_get d' k
  end.

(** [d[k]]. *)
Definition dict_getitem {event V} (d : dict V) (k : nat) : M event V :=
  match dict_get d k with
  | Some v => ret v
  | None => raise (KeyError k)
  end.

(** [d.items()]. *)
Definition items {V} (d : dict V) : list (nat * V) := d.

End Py.

Notation "x <- c ;; k" := (Py.bind c (fun x => k))
  (at level 61, c at next level, right associativity).

(* ===================================================================== *)
(** ** numpy: the array operations the source uses                        *)
(* ===================================================================== *)

Module Numpy.
Import Py.

(** [a[i]] on the first axis, for a non-negative index. *)
Definition getitem {event A} (a : list A) (i : nat) : M event A :=
  match nth_error a i with
  | Some x => ret x
  | None =>
      raise (IndexError ("index " ++ str_of_nat i
                         ++ " is out of bounds for axis 0 with size "
                         ++ str_of_nat (List.length a)))
  end.

(** The scan of [np.argmax]: the running maximum is replaced only by a
    strictly larger entry, so the first occurrence of the maximum wins. *)
Fixpoint argmax_from (best_i : nat) (best : Q) (i : nat) (l : list Q) : nat :=
  match l with
  | [] => best_i
  | x :: t =>
      if Qle_bool x best
      then argmax_from best_i best (S i) t
      else argmax_from i x (S i) t
  end.

Definition argmax {event} (a : list Q) : M event nat :=
  match a with
  | [] => raise (ValueError "attempt to get argmax of an empty sequence")
  | x :: t => ret (argmax_from 0 x 1 t)
  end.

(** Arrays of rank 3 (height, width, channels) and rank 4. *)
Definition array3 : Type := list (list (list Q)).
Definition array4 : Type := list array3.

(** [np.expand_dims(a, axis=0)]. *)
Definition expand_dims0 (a : array3) : array4 := [a].

(** [a /= c]. *)
Definition idiv (a : array4) (c : Q) : array4 :=
  map (map (map (map (fun v => (v / c)%Q)))) a.

Definition has_shape3 (h w c : nat) (a : array3) : Prop :=
  List.length a = h /\
  Forall (fun row => List.length row = w /\ Forall (fun px => List.length px = c) row) a.

Definition has_shape4 (n h w c : nat) (a : array4) : Prop :=
  List.length a = n /\ Forall (has_shape3 h w c) a.

Definition all_values (P : Q -> Prop) (a : array4) : Prop :=
  Forall (Forall (Forall (Forall P))) a.

Definition sum (l : list Q) : Q := fold_right Qplus 0%Q l.

End Numpy.

(* ===================================================================== *)
(** ** keras.preprocessing.image over PIL                                 *)
(* ===================================================================== *)

Module Image.
Import Py Numpy.

(** An 8-bit RGB pixel. *)
Record rgb : Type := { red : byte; green : byte; blue : byte }.

(** A decoded raster in mode RGB: [size] is (width, height). *)
Record pil_image : Type := {
  size : nat * nat;
  getpixel : nat -> nat -> rgb
}.

(** The file system and the imaging library, as far as the program sees
    them: [pil_open] decodes a path (or fails), [pil_resample] is the
    resampling kernel, giving the pixel at (x, y) of the image resized to
    (width, height). *)
Record imaging : Type := {
  pil_open : string -> exn + pil_image;
  pil_resample : pil_image -> nat * nat -> nat -> nat -> rgb
}.

Definition resize (I : imaging) (img : pil_image) (wh : nat * nat) : pil_image :=
  {| size := wh; getpixel := pil_resample I img wh |}.

Definition size_eqb (a b : nat * nat) : bool :=
  Nat.eqb (fst a) (fst b) && Nat.eqb (snd a) (snd b).

(** [load_img(path, target_size=ts)] after the file was opened:
    [target_size] is read as (height, width), and the image is resized
    when its size differs; the aspect ratio is not kept. *)
Definition to_target (I : imaging) (img : pil_image) (target_size : nat * nat)
  : pil_image :=
  let width_height := (snd target_size, fst target_size) in
  if size_eqb (size img) width_height then img
  else resize I img width_height.

Definition channel (b : byte) : Q := inject_Z (Z.of_N (Byte.to_N b)).

(** [img_to_array(img)]: rows of pixels of three float channels. *)
Definition img_to_array (img : pil_image) : array3 :=
  map (fun y =>
         map (fun x =>
                let p := getpixel img x y in
                [channel (red p); channel (green p); channel (blue p)])
             (seq 0 (fst (size img))))
      (seq 0 (snd (size img))).

(** A loaded network, seen through [model.predict]: a batch of images in,
    one row of class scores per image out (or an exception). *)
Definition keras_model : Type := array4 -> exn + list (list Q).

(** The observed calls: opening an image file, a forward pass of the
    network, a line printed to standard output. *)
Inductive event : Type :=
| LoadImg (path : string)
| Predict (input : array4)
| Print (line : string).

(** [image.load_img(path, target_size=target_size)]. *)
Definition load_img (I : imaging) (path : string) (target_size : nat * nat)
  : M event pil_image :=
  img <- call (LoadImg path) (pil_open I path) ;;
  ret (to_target I img target_size).

End Image.

(* ===================================================================== *)
(** ** app.py                                                             *)
(* ===================================================================== *)

Module App.
Import Py Numpy Image.

Definition M : Type -> Type := Py.M event.

(** The module-level names bound by the guarded load (lines 7-12):
    [model] stays unbound when loading raised. *)
Record globals : Type := {
  model : option keras_model;
  model_loaded : bool
}.

Definition model_file : string := "tomato_classifier_model_vgg16_4_classes.h5".

Definition startup (load_model : string -> exn + keras_model) : globals :=
  match load_model model_file with
  | inr m => {| model := Some m; model_loaded := true |}
  | inl _ => {| model := None; model_loaded := false |}
  end.

Definition startup_output (F : formatting)
    (load_model : string -> exn + keras_model) : list string :=
  match load_model model_file with
  | inr _ => []
  | inl e => ["Error loading model: " ++ str F e]
  end.

Definition img_width : nat := 224.
Definition img_height : nat := 224.

Definition class_labels : dict string :=
  [ (0, "Early_Vegetative 🌿");
    (1, "Flowering_Initiation 🌼");
    (2, "Fruiting_and_Ripening 🍅");
    (3, "Germination_and_Seedling 🌱") ]%list.

Record care_record : Type := {
  title : string;
  description : string;
  do : list string;
  dont : list string
}.

(** Detailed care instructions for each growth stage. *)
Definition care_instructions : dict care_record :=
  [ (0, {| title := "Early Vegetative Stage Care 🌿";
           description := "Your tomato plant is in its early vegetative growth phase, focusing on developing strong stems and leaves.";
           do :=
             [ "💧 Water regularly but avoid overwatering - soil should be moist, not soggy";
               "☀️ Provide 6-8 hours of direct sunlight daily";
               "🌡️ Maintain temperature between 65-75°F (18-24°C)";
               "💨 Ensure good air circulation around the plant";
               "🪴 Apply balanced fertilizer (10-10-10 or 14-14-14) every 2 weeks";
               "✂️ Start gentle pruning of lower leaves touching the soil";
               "🏗️ Begin staking or caging for future support" ]%list;
           dont :=
             [ "❌ Don't use high-nitrogen fertilizers exclusively";
               "❌ Avoid getting water on leaves (causes fungal diseases)";
               "❌ Don't transplant during extreme weather";
               "❌ Avoid heavy pruning at this stage";
               "❌ Don't let soil completely dry out between waterings" ]%list |});
    (1, {| title := "Flowering Initiation Stage Care 🌼";
           description := "Your plant is starting to flower! This is a critical stage that determines fruit production.";
           do :=
             [ "🐝 Encourage pollination by gently shaking flowers daily";
               "💧 Water consistently - stress can cause flower drop";
               "🌡️ Maintain steady temperature (avoid sudden changes)";
               "🪴 Switch to low-nitrogen, high-phosphorus fertilizer";
               "✂️ Remove suckers (shoots between main stem and branches)";
               "🏗️ Ensure strong support structure is in place";
               "👀 Monitor for early pest signs (aphids, whiteflies)" ]%list;
           dont :=
             [ "❌ Don't over-fertilize with nitrogen (reduces flowering)";
               "❌ Avoid disturbing roots during this sensitive period";
               "❌ Don't let plants experience water stress";
               "❌ Avoid excessive pruning of flower clusters";
               "❌ Don't use pesticides that harm beneficial pollinators" ]%list |});
    (2, {| title := "Fruiting and Ripening Stage Care 🍅";
           description := "Congratulations! Your plant is producing fruits. Focus on supporting healthy fruit development.";
           do :=
             [ "💧 Maintain consistent, deep watering (1-2 inches per week)";
               "🪴 Use high-potassium fertilizer to support fruit development";
               "🏗️ Provide strong support for heavy fruit-laden branches";
               "☀️ Ensure fruits get adequate sunlight for proper ripening";
               "✂️ Prune lower leaves and non-productive branches";
               "👀 Monitor for fruit diseases (blight, cracking, blossom end rot)";
               "🔄 Harvest ripe fruits regularly to encourage continued production" ]%list;
           dont :=
             [ "❌ Don't let soil dry out completely (causes blossom end rot)";
               "❌ Avoid irregular watering patterns";
               "❌ Don't over-water (can cause fruit cracking)";
               "❌ Avoid high-nitrogen fertilizers (reduces fruit quality)";
               "❌ Don't harvest fruits too early - let them ripen on vine when possible" ]%list |});
    (3, {| title := "Germination and Seedling Stage Care 🌱";
           description := "Your tomato is just starting its journey! This delicate stage requires gentle care and attention.";
           do :=
             [ "💧 Keep soil consistently moist but not waterlogged";
               "🌡️ Maintain warm temperature (70-80°F / 21-27°C)";
               "💡 Provide bright, indirect light (14-16 hours daily)";
               "🌱 Use seed starting mix or well-draining potting soil";
               "🔄 Turn seedlings daily if using artificial lights";
               "🪴 Start diluted fertilizer once true leaves appear";
               "🌬️ Gradually introduce to outdoor conditions (hardening off)" ]%list;
           dont :=
             [ "❌ Don't expose to direct sunlight immediately";
               "❌ Avoid overwatering (causes damping-off disease)";
               "❌ Don't use regular garden soil for seedlings";
               "❌ Avoid disturbing roots unnecessarily";
               "❌ Don't transplant outdoors until night temperatures stay above 50°F (10°C)";
               "❌ Avoid strong fertilizers on young seedlings" ]%list |}) ]%list.

(** [model.predict(x, verbose=0)]. *)
Definition model_predict (g : globals) (x : array4) : M (list (list Q)) :=
  match model g with
  | Some m => call (Predict x) (m x)
  | None => raise (OtherException "NameError" "name 'model' is not defined")
  end.

(** [max(a, b)] of the interpreter: the first argument unless the second
    is strictly larger. *)
Definition py_max (a b : Q) : Q := if Qle_bool b a then a else b.

(** What one pass of the loop over [class_labels.items()] computes
    (lines 154-166). *)
Record confidence_row : Type := {
  row_class_idx : nat;
  row_label : string;
  row_conf_pct : Q;
  row_bar_width : Q;
  row_bar_color : string;
  row_text_color : string;
  row_weight : string;
  row_border : string
}.

Definition confidence_row_of (confidences : list Q)
    (predicted_class_index : nat) (item : nat * string) : M confidence_row :=
  let '(class_idx, label) := item in
  c <- getitem confidences class_idx ;;
  let conf_pct := (c * 100)%Q in
  let bar_width := py_max 5%Q (conf_pct * 3)%Q in
  if Nat.eqb class_idx predicted_class_index
  then ret {| row_class_idx := class_idx; row_label := label;
              row_conf_pct := conf_pct; row_bar_width := bar_width;
              row_bar_color := "linear-gradient(90deg, #4CAF50, #45a049)";
              row_text_color := "#2d5016";
              row_weight := "bold";
              row_border := "2px solid #4CAF50" |}
  else ret {| row_class_idx := class_idx; row_label := label;
              row_conf_pct := conf_pct; row_bar_width := bar_width;
              row_bar_color := "linear-gradient(90deg, #e0e0e0, #d0d0d0)";
              row_text_color := "#666";
              row_weight := "normal";
              row_border := "1px solid #ddd" |}.

(** The text one pass appends to [confidence_html] (lines 168-178). *)
Definition render_row (F : formatting) (r : confidence_row) : string :=
  "
            <div style='margin: 15px 0; padding: 12px; border: "
  ++ row_border r
  ++ "; border-radius: 8px; background: #fafafa;'>
                <div style='display: flex; justify-content: space-between; align-items: center; margin-bottom: 8px;'>
                    <span style='font-weight: "
  ++ row_weight r
  ++ "; color: "
  ++ row_text_color r
  ++ "; font-size: 16px;'>"
  ++ row_label r
  ++ "</span>
                    <span style='font-weight: bold; color: "
  ++ row_text_color r
  ++ "; font-size: 16px;'>"
  ++ fmt_1f F (row_conf_pct r)
  ++ "%</span>
                </div>
                <div style='width: 100%; height: 12px; background-color: #f0f0f0; border-radius: 6px; overflow: hidden;'>
                    <div style='width: "
  ++ fmt_float F (row_conf_pct r)
  ++ "%; height: 100%; background: "
  ++ row_bar_color r
  ++ "; transition: width 0.5s ease; border-radius: 6px;'></div>
                </div>
            </div>
            ".

(** A [for] loop whose body may raise: the passes run in order and the
    first exception ends the loop. *)
Fixpoint for_each {A B} (body : A -> M B) (l : list A) : M (list B) :=
  match l with
  | [] => ret []%list
  | a :: l' =>
      b <- body a ;;
      bs <- for_each body l' ;;
      ret (b :: bs)%list
  end.

(** [confidence_html] once the loop is over (lines 150-151, 180). *)
Definition confidence_markup (F : formatting) (rows : list confidence_row)
  : string :=
  "<div style='background: white; padding: 20px; border-radius: 15px; box-shadow: 0 4px 6px rgba(0,0,0,0.1); margin: 10px 0;'>"
  ++ "<h3 style='color: #2d5016; margin-bottom: 15px; text-align: center;'>📈 Confidence Analysis</h3>"
  ++ String.concat "" (map (render_row F) rows)
  ++ "</div>".

Definition render_item (item : string) : string :=
  "<li style='margin: 8px 0; padding: 5px 0;'>• "
  ++ item
  ++ "</li>".

(** [care_html] (lines 184-215). *)
Definition care_markup (care_info : care_record) : string :=
  "
        <div style='background: linear-gradient(135deg, #f8f9fa, #e9ecef); padding: 25px; border-radius: 15px; box-shadow: 0 6px 12px rgba(0,0,0,0.1); margin: 15px 0;'>
            <h2 style='color: #2d5016; margin-bottom: 15px; text-align: center; font-size: 24px;'>"
  ++ title care_info
  ++ "</h2>
            <p style='color: #555; font-size: 16px; text-align: center; margin-bottom: 25px; font-style: italic;'>"
  ++ description care_info
  ++ "</p>
            
            <div style='display: grid; grid-template-columns: 1fr 1fr; gap: 20px; margin-top: 20px;'>
                <div style='background: #d4edda; padding: 20px; border-radius: 12px; border-left: 5px solid #28a745;'>
                    <h3 style='color: #155724; margin-bottom: 15px; font-size: 18px;'>✅ What TO DO:</h3>
                    <ul style='color: #155724; line-height: 1.8; padding-left: 0; list-style: none;'>
        "
  ++ String.concat "" (map render_item (do care_info))
  ++ "
                    </ul>
                </div>
                
                <div style='background: #f8d7da; padding: 20px; border-radius: 12px; border-left: 5px solid #dc3545;'>
                    <h3 style='color: #721c24; margin-bottom: 15px; font-size: 18px;'>🚫 What NOT TO DO:</h3>
                    <ul style='color: #721c24; line-height: 1.8; padding-left: 0; list-style: none;'>
        "
  ++ String.concat "" (map render_item (dont care_info))
  ++ "
                    </ul>
                </div>
            </div>
        </div>
        ".

Definition result_text_of (F : formatting) (predicted_label : string)
    (max_confidence : Q) : string :=
  "🎯 **Predicted Stage:** "
  ++ predicted_label
  ++ "
📊 **Confidence:** "
  ++ fmt_1f F (max_confidence * 100)%Q
  ++ "%".

(** What the [try] does with the answer of the network (lines 134-217):
    scores of the first image, winning index, label, the two pieces of
    markup. *)
Definition present (F : formatting) (prediction : list (list Q))
  : M (string * string * string) :=
  confidences <- getitem prediction 0 ;;
  predicted_class_index <- argmax confidences ;;
  max_confidence <- getitem confidences predicted_class_index ;;
  predicted_label <- dict_getitem class_labels predicted_class_index ;;
  let result_text := result_text_of F predicted_label max_confidence in
  rows <- for_each (confidence_row_of confidences predicted_class_index)
                   (items class_labels) ;;
  let confidence_html := confidence_markup F rows in
  care_info <- dict_getitem care_instructions predicted_class_index ;;
  let care_html := care_markup care_info in
  ret (result_text, confidence_html, care_html).

(** The body of the [try] (lines 125-217): preprocess the uploaded image,
    make a prediction, present it. *)
Definition classify_image (F : formatting) (I : imaging) (g : globals)
    (img_file : string) : M (string * string * string) :=
  img <- load_img I img_file (img_width, img_height) ;;
  let img_array := img_to_array img in
  let img_array := expand_dims0 img_array in
  let img_array := idiv img_array 255%Q in
  prediction <- model_predict g img_array ;;
  present F prediction.

(** [predict_growth_stage(img_file)]: [img_file] is a path or [None]. *)
Definition predict_growth_stage (F : formatting) (I : imaging) (g : globals)
    (img_file : option string) : M (string * string * string) :=
  if negb (model_loaded g) then
    ret ("❌ Model not loaded. Please check if the model file exists.", "", "")
  else
    match img_file with
    | None => ret ("📤 Please upload an image first.", "", "")
    | Some path =>
        try_except
          (classify_image F I g path)
          (fun e => ret ("❌ An error occurred: " ++ str F e, "", ""))
    end.

End App.

(* ===================================================================== *)
(** ** predict.py                                                         *)
(* ===================================================================== *)

Module Predict.
Import Py Numpy Image.

Definition M : Type -> Type := Py.M event.

Definition model_file : string := "tomato_classifier_model_vgg16_4_classes.h5".

Definition img_width : nat := 224.
Definition img_height : nat := 224.

Definition class_labels : dict string :=
  [ (0, "Early Vegetative Stage");
    (1, "Flowering Initiation Stage");
    (2, "Fruiting and Ripening");
    (3, "Germination Stage") ]%list.

Definition print (line : string) : M unit := call (Print line) (inr tt).

(** Function to preprocess a new image. *)
Definition preprocess_image (I : imaging) (img_path : string) : M array4 :=
  img <- load_img I img_path (img_width, img_height) ;;
  let img_array := img_to_array img in
  let img_array := expand_dims0 img_array in
  let img_array := idiv img_array 255%Q in
  ret img_array.

(** Make a prediction: both lines are printed, the second one after the
    label was looked up. *)
Definition predict_stage (F : formatting) (I : imaging) (model : keras_model)
    (img_path : string) : M unit :=
  processed_image <- preprocess_image I img_path ;;
  prediction <- call (Predict processed_image) (model processed_image) ;;
  scores <- getitem prediction 0 ;;
  predicted_class_index <- argmax scores ;;
  shown <- getitem prediction 0 ;;
  _ <- print ("Prediction probabilities: " ++ fmt_array F shown) ;;
  label <- dict_getitem class_labels predicted_class_index ;;
  print ("The model predicts this plant is in the: " ++ label).

Definition new_image_path : string :=
  "./data/Stage2_Flowering_Initiation/8cb7612861fca3b4d336b5f4d65593ee.jpg".

(** The module body: the model is loaded without a guard, then one image
    is classified. *)
Definition script (F : formatting) (I : imaging)
    (load_model : string -> exn + keras_model) : M unit :=
  match load_model model_file with
  | inl e => raise e
  | inr model => predict_stage F I model new_image_path
  end.

End Predict.

(* ===================================================================== *)
(** ** cleanup.py                                                         *)
(* ===================================================================== *)

Module Cleanup.
Import Py.

(** Define the root directory of your dataset. *)
Definition dataset_path : string := "data".

(** List of valid image extensions. *)
Definition valid_extensions : list string := [".jpg"; ".jpeg"; ".png"]%list.

(** [c.lower()] on one byte of a UTF-8 name: only A-Z change.  (The two
    characters outside ASCII whose lower case contains an ASCII letter
    give k and i, which no extension above contains.) *)
Definition lower_ascii (c : ascii) : ascii :=
  let n := nat_of_ascii c in
  if (65 <=? n)%nat && (n <=? 90)%nat then ascii_of_nat (n + 32) else c.

Fixpoint lower (s : string) : string :=
  match s with
  | EmptyString => EmptyString
  | String c s' => String (lower_ascii c) (lower s')
  end.

(** [s.endswith(suffix)]. *)
Definition endswith (s suffix : string) : bool :=
  let ls := String.length s in
  let lf := String.length suffix in
  (lf <=? ls)%nat && String.eqb (substring (ls - lf) lf s) suffix.

(** [s.endswith(t)] for a tuple [t]. *)
Definition endswith_any (s : string) (suffixes : list string) : bool :=
  existsb (endswith s) suffixes.

Definition startswith (s pre : string) : bool := prefix pre s.

(** [os.path.join(a, b)] on POSIX. *)
Definition path_join (a b : string) : string :=
  if startswith b "/" then b
  else if String.eqb a "" || endswith a "/" then a ++ b
  else a ++ "/" ++ b.

#[local] Set Warnings "-register-all".

(** A directory as a walk sees it: its entries that are not directories,
    with their contents, and its subdirectories. *)
Inductive dir : Type :=
| Dir (files : list (string * list byte)) (subdirs : list (string * dir)).

(** The counters of the function and what it has printed so far. *)
Record progress : Type := {
  total_files : nat;
  corrupted_count : nat;
  printed : list string
}.

Section Walk.
Variable F : formatting.

(** [with Image.open(file_path) as img: img.verify()] for the file at
    [file_path] holding [data]: [None] when no exception is raised. *)
Variable open_and_verify : string -> list byte -> option exn.

(** [print(line)] inside the handler: [None] when the line was written,
    the exception when standard output cannot encode it (the line carries
    the file name, which need not be text that the terminal accepts).  The
    other lines the script prints are ASCII and are written as they are. *)
Variable print_removal : string -> option exn.

(** [os.remove(file_path)]: [None] when the file was removed, the
    exception otherwise (the file is then still there). *)
Variable os_remove : string -> option exn.

Definition has_valid_extension (file : string) : bool :=
  endswith_any (lower file) valid_extensions.

(** The handler is entered for the file (lines 19-24 of the source): its
    name has an image extension and opening or verifying it raised. *)
Definition is_removed (root file : string) (data : list byte) : bool :=
  has_valid_extension file &&
  match open_and_verify (path_join root file) data with
  | Some _ => true
  | None => false
  end.

(** The inner loop over the files of one directory.  The result is the
    files of the directory afterwards, the counters and output, and the
    exception that ended the loop, if any: the handler prints, then
    removes, and neither call is guarded, so an exception of either leaves
    the file in place and ends the walk. *)
Fixpoint scan_files (root : string) (files : list (string * list byte))
    (p : progress)
  : list (string * list byte) * progress * option exn :=
  match files with
  | [] => ([]%list, p, None)
  | (file, data) :: rest =>
      let total := S (total_files p) in
      let file_path := path_join root file in
      if endswith_any (lower file) valid_extensions then
        match open_and_verify file_path data with
        | None =>
            let '(rest', p', raised) :=
              scan_files root rest
                {| total_files := total;
                   corrupted_count := corrupted_count p;
                   printed := printed p |} in
            (((file, data) :: rest')%list, p', raised)
        | Some e =>
            let line :=
              "Removing corrupted file: " ++ file_path
              ++ " - Error: " ++ str F e in
            match print_removal line with
            | Some print_error =>
                (((file, data) :: rest)%list,
                 {| total_files := total;
                    corrupted_count := corrupted_count p;
                    printed := printed p |},
                 Some print_error)
            | None =>
                match os_remove file_path with
                | Some remove_error =>
                    (((file, data) :: rest)%list,
                     {| total_files := total;
                        corrupted_count := corrupted_count p;
                        printed := (printed p ++ [line])%list |},
                     Some remove_error)
                | None =>
                    scan_files root rest
                      {| total_files := total;
                         corrupted_count := S (corrupted_count p);
                         printed := (printed p ++ [line])%list |}
                end
            end
        end
      else
        let '(rest', p', raised) :=
          scan_files root rest
            {| total_files := total;
               corrupted_count := corrupted_count p;
               printed := printed p |} in
        (((file, data) :: rest')%list, p', raised)
  end.

(** [for root, dirs, files in os.walk(root)], top-down: the files of a
    directory first, then its subdirectories in turn; an exception ends
    the walk where it is raised. *)
Fixpoint walk (root : string) (d : dir) (p : progress)
  : dir * progress * option exn :=
  match d with
  | Dir files subdirs =>
      match scan_files root files p with
      | (files', p1, Some e) => (Dir files' subdirs, p1, Some e)
      | (files', p1, None) =>
          let '(subdirs', p2, raised) :=
            (fix walk_subdirs (ds : list (string * dir)) (p : progress)
               : list (string * dir) * progress * option exn :=
               match ds with
               | [] => ([]%list, p, None)
               | (name, sub) :: ds' =>
                   match walk (path_join root name) sub p with
                   | (sub', p', Some e) =>
                       (((name, sub') :: ds')%list, p', Some e)
                   | (sub', p', None) =>
                       let '(ds'', p'', raised) := walk_subdirs ds' p' in
                       (((name, sub') :: ds'')%list, p'', raised)
                   end
               end) subdirs p1 in
          (Dir files' subdirs', p2, raised)
      end
  end.

(** [cleanup_corrupt_images(root_dir)]: [found] is the directory that
    [root_dir] names, [None] when it names no directory (the walk is
    then empty).  The result is that directory afterwards, everything
    printed, and the exception that ended the call, if any; the summary is
    printed only when the walk came to its end. *)
Definition cleanup_corrupt_images (root_dir : string) (found : option dir)
  : option dir * list string * option exn :=
  let start := {| total_files := 0; corrupted_count := 0; printed := [] |} in
  let '(after, p, raised) :=
    match found with
    | Some d => let '(d', p, raised) := walk root_dir d start in (Some d', p, raised)
    | None => (None, start, None)
    end in
  match raised with
  | Some e => (after, printed p, Some e)
  | None =>
      let out :=
        (printed p ++
         [(nl ++ "Cleanup complete. Scanned " ++ str_of_nat (total_files p)
           ++ " files.")%string])%list in
      if (0 <? corrupted_count p)%nat
      then (after,
            (out ++ [("Removed " ++ str_of_nat (corrupted_count p)
                      ++ " corrupted files.")%string])%list,
            None)
      else (after, (out ++ ["No corrupted files were found."])%list, None)
  end.

(** Run the cleanup on your dataset folder. *)
Definition script (found : option dir)
  : option dir * list string * option exn :=
  let '(after, out, raised) := cleanup_corrupt_images dataset_path found in
  (after, ("Starting cleanup for corrupt image files..." :: out)%list, raised).

(** Every file below a directory, in walk order, with the directory
    path it was found under. *)
Fixpoint listing (root : string) (d : dir)
  : list (string * string * list byte) :=
  match d with
  | Dir files subdirs =>
      (map (fun fd => (root, fst fd, snd fd)) files ++
       (fix listing_subdirs (ds : list (string * dir)) :=
          match ds with
          | [] => []
          | (name, sub) :: ds' =>
              listing (path_join root name) sub ++ listing_subdirs ds'
          end) subdirs)%list
  end.

(** The directories below (and including) a directory, by path. *)
Fixpoint skeleton (root : string) (d : dir) : list string :=
  match d with
  | Dir _ subdirs =>
      (root ::
       (fix skeleton_subdirs (ds : list (string * dir)) :=
          match ds with
          | [] => []
          | (name, sub) :: ds' =>
              skeleton (path_join root name) sub ++ skeleton_subdirs ds'
          end) subdirs)%list
  end.

End Walk.

End Cleanup.

(* ===================================================================== *)
(** ** Test doubles                                                       *)
(* ===================================================================== *)

Module Fixtures.
Import Py Numpy Image.

(** A formatter that prints whole percents and plain indices. *)
Definition F0 : formatting :=
  {| fmt_1f := fun q => str_of_nat (Z.to_nat (Qfloor q));
     fmt_float := fun q => str_of_nat (Z.to_nat (Qfloor q));
     repr_index := str_of_nat;
     fmt_array := fun l => String.concat " "
                    (map (fun q => str_of_nat (Z.to_nat (Qfloor (q * 100)%Q))) l) |}.

(** A 2 x 1 picture: one red pixel, one white pixel. *)
Definition two_pixels : pil_image :=
  {| size := (2, 1);
     getpixel := fun x _ =>
       if Nat.eqb x 0 then {| red := xff; green := x00; blue := x00 |}
       else {| red := xff; green := xff; blue := xff |} |}.

(** Nearest-neighbour resampling; one readable picture, one file that is
    no image, nothing else on disk. *)
Definition I0 : imaging :=
  {| pil_open := fun path =>
       if String.eqb path "leaf.png" then inr two_pixels
       else if String.eqb path "notes.txt"
            then inl (UnidentifiedImageError "cannot identify image file")
            else inl (FileNotFoundError "No such file or directory");
     pil_resample := fun img wh x y =>
       getpixel img (x * fst (size img) / fst wh) (y * snd (size img) / snd wh) |}.

(** Networks that answer the same scores for every input. *)
Definition constant_model (scores : list Q) : keras_model :=
  fun _ => inr [scores].

Definition fruiting : list Q := [ 1 # 10; 2 # 10; 6 # 10; 1 # 10 ]%Q.
Definition tied : list Q := [ 1 # 10; 4 # 10; 4 # 10; 1 # 10 ]%Q.
Definition five_classes : list Q := [ 0; 0; 1 # 10; 0; 9 # 10 ]%Q.

Definition broken_model : keras_model :=
  fun _ => inl (OtherException "InvalidArgumentError" "incompatible shapes").

Definition loaded (m : keras_model) : App.globals :=
  App.startup (fun _ => inr m).

Definition load_fails : string -> exn + keras_model :=
  fun _ => inl (OtherException "OSError" "No file or directory found").

(** A small dataset folder. *)
Definition png_ok : list byte := [x89; x50; x4e; x47].
Definition garbage : list byte := [x00; x01].

Definition dataset : Cleanup.dir :=
  Cleanup.Dir
    [ ("README.md", garbage); ("cover.PNG", garbage) ]
    [ ("Stage1", Cleanup.Dir [ ("a.jpg", png_ok); ("b.JPeG", garbage);
                               ("c.txt", garbage) ] []);
      ("Stage2", Cleanup.Dir [ ("d.png", garbage) ]
                             [ ("raw", Cleanup.Dir [ ("e.jpg.bak", garbage) ] []) ]) ].

(** A file verifies when it starts with the PNG magic number. *)
Definition verify0 (file_path : string) (data : list byte) : option exn :=
  match data with
  | x89 :: x50 :: x4e :: x47 :: _ => None
  | _ => Some (UnidentifiedImageError "cannot identify image file")
  end.

(** Standard output and the file system of the test folder: a terminal
    that writes every line, one that encodes ASCII only, a folder from
    which files can be removed and a read-only one. *)
Definition any_stdout (line : string) : option exn := None.

Fixpoint is_ascii (s : string) : bool :=
  match s with
  | EmptyString => true
  | String c s' => (nat_of_ascii c <? 128)%nat && is_ascii s'
  end.

Definition ascii_stdout (line : string) : option exn :=
  if is_ascii line then None
  else Some (OtherException "UnicodeEncodeError"
               "'ascii' codec can't encode character: ordinal not in range(128)").

Definition remove_ok (file_path : string) : option exn := None.

Definition remove_denied (file_path : string) : option exn :=
  Some (OtherException "PermissionError" "[Errno 13] Permission denied").

(** A folder with two corrupt images, the first with an accent in its
    name. *)
Definition accented : Cleanup.dir :=
  Cleanup.Dir [ ("café.jpg", garbage); ("b.png", garbage) ] [].

End Fixtures.

Import Py Numpy Image.

(* ===================================================================== *)
(** ** Vocabulary of the properties                                       *)
(* ===================================================================== *)

(** The tensor the source builds from a decoded picture: resized to the
    target, converted to floats, given a batch axis, divided by 255. *)
Definition tensor_of (I : imaging) (img : pil_image) : array4 :=
  idiv (expand_dims0
          (img_to_array (to_target I img (App.img_width, App.img_height))))
       255%Q.

(** The text of the result when the [try] caught [e]. *)
Definition error_result (F : formatting) (e : exn) : string * string * string :=
  ("❌ An error occurred: " ++ str F e, "", "").

(** The two ways a row of the breakdown is drawn. *)
Definition drawn_as_predicted (r : App.confidence_row) : Prop :=
  App.row_bar_color r = "linear-gradient(90deg, #4CAF50, #45a049)" /\
  App.row_text_color r = "#2d5016" /\
  App.row_weight r = "bold" /\
  App.row_border r = "2px solid #4CAF50".

Definition drawn_as_other (r : App.confidence_row) : Prop :=
  App.row_bar_color r = "linear-gradient(90deg, #e0e0e0, #d0d0d0)" /\
  App.row_text_color r = "#666" /\
  App.row_weight r = "normal" /\
  App.row_border r = "1px solid #ddd".

(** Row [r] is the pass of the loop for catalog entry [item], given the
    scores and the winning index. *)
Definition row_matches (confidences : list Q) (predicted : nat)
    (item : nat * string) (r : App.confidence_row) : Prop :=
  App.row_class_idx r = fst item /\
  App.row_label r = snd item /\
  (exists c, nth_error confidences (fst item) = Some c /\
             App.row_conf_pct r = (c * 100)%Q) /\
  (fst item = predicted -> drawn_as_predicted r) /\
  (fst item <> predicted -> drawn_as_other r).

(** Entry [n, y, x, c] of a rank-4 array. *)
Definition tensor_at (t : array4) (n y x c : nat) : option Q :=
  match nth_error t n with
  | Some a =>
      match nth_error a y with
      | Some row =>
          match nth_error row x with
          | Some px => nth_error px c
          | None => None
          end
      | None => None
      end
  | None => None
  end.

Definition in_unit_interval (v : Q) : Prop := (0 <= v /\ v <= 1)%Q.

(** A computation that calls nothing outside the program. *)
Definition silent {A} (m : App.M A) : Prop := forall tr, snd (m tr) = tr.

(** An entry of a listing (directory path, file name, contents) survives
    the cleanup. *)
Definition survives (open_and_verify : string -> list byte -> option exn)
    (entry : string * string * list byte) : bool :=
  negb (Cleanup.is_removed open_and_verify
          (fst (fst entry)) (snd (fst entry)) (snd entry)).

(** The passes of [Cleanup.walk], [Cleanup.listing] and
    [Cleanup.skeleton] over the subdirectories of one directory, by name. *)
Definition walk_each (F : formatting)
    (open_and_verify : string -> list byte -> option exn)
    (print_removal os_remove : string -> option exn) (root : string)
  : list (string * Cleanup.dir) -> Cleanup.progress ->
    list (string * Cleanup.dir) * Cleanup.progress * option exn :=
  fix walk_subdirs ds p :=
    match ds with
    | [] => ([]%list, p, None)
    | (name, sub) :: ds' =>
        match Cleanup.walk F open_and_verify print_removal os_remove
                (Cleanup.path_join root name) sub p with
        | (sub', p', Some e) => (((name, sub') :: ds')%list, p', Some e)
        | (sub', p', None) =>
            let '(ds'', p'', raised) := walk_subdirs ds' p' in
            (((name, sub') :: ds'')%list, p'', raised)
        end
    end.

Definition listing_each (root : string)
  : list (string * Cleanup.dir) -> list (string * string * list byte) :=
  fix listing_subdirs ds :=
    match ds with
    | [] => []%list
    | (name, sub) :: ds' =>
        (Cleanup.listing (Cleanup.path_join root name) sub
         ++ listing_subdirs ds')%list
    end.

Definition skeleton_each (root : string)
  : list (string * Cleanup.dir) -> list string :=
  fix skeleton_subdirs ds :=
    match ds with
    | [] => []%list
    | (name, sub) :: ds' =>
        (Cleanup.skeleton (Cleanup.path_join root name) sub
         ++ skeleton_subdirs ds')%list
    end.

(** Character [c] is the character [l] or, when [l] is a small letter, its
    capital. *)
Definition reads_as (c l : ascii) : Prop :=
  c = l \/
  ((97 <= nat_of_ascii l)%nat /\ (nat_of_ascii l <= 122)%nat /\
   (nat_of_ascii c + 32 = nat_of_ascii l)%nat).

(** String [s] is the word [word] written in any mix of small and capital
    letters. *)
Fixpoint spells (s word : string) : Prop :=
  match s, word with
  | EmptyString, EmptyString => True
  | String c s', String l word' => reads_as c l /\ spells s' word'
  | _, _ => False
  end.

(** The name ends, whatever the case of its letters, with .jpg, .jpeg or
    .png. *)
Definition ends_with_image_extension (file : string) : Prop :=
  exists stem tail,
    file = stem ++ tail /\
    (spells tail ".jpg" \/ spells tail ".jpeg" \/ spells tail ".png").

(** The line the cleanup prints for an entry of a listing: one line for an
    entry whose handler is entered, none for any other. *)
Definition removal_lines (F : formatting)
    (open_and_verify : string -> list byte -> option exn)
    (entry : string * string * list byte) : list string :=
  let file_path := Cleanup.path_join (fst (fst entry)) (snd (fst entry)) in
  if Cleanup.has_valid_extension (snd (fst entry)) then
    match open_and_verify file_path (snd entry) with
    | Some e =>
        [ ("Removing corrupted file: " ++ file_path ++ " - Error: "
           ++ str F e)%string ]%list
    | None => []%list
    end
  else []%list.

(** The exception that leaves the handler for an entry, if any: the one of
    the print, else the one of [os.remove]. *)
Definition handler_exception (F : formatting)
    (open_and_verify : string -> list byte -> option exn)
    (print_removal os_remove : string -> option exn)
    (entry : string * string * list byte) : option exn :=
  match removal_lines F open_and_verify entry with
  | [] => None
  | line :: _ =>
      match print_removal line with
      | Some e => Some e
      | None => os_remove (Cleanup.path_join (fst (fst entry)) (snd (fst entry)))
      end
  end%list.

(** What a handler that raised had printed before: its line when the
    print succeeded and the removal failed. *)
Definition printed_before_raise (F : formatting)
    (open_and_verify : string -> list byte -> option exn)
    (print_removal : string -> option exn)
    (entry : string * string * list byte) : list string :=
  match removal_lines F open_and_verify entry with
  | [] => []
  | line :: _ =>
      match print_removal line with
      | Some _ => []
      | None => [line]
      end
  end%list.

(** The entries of a listing whose handler is entered. *)
Definition removed_of (open_and_verify : string -> list byte -> option exn)
    (l : list (string * string * list byte))
  : list (string * string * list byte) :=
  filter (fun entry => negb (survives open_and_verify entry)) l.

(** The walk, told over the listing of the tree: the entries left, the
    counters and output, and the exception that ended it, if any. *)
Fixpoint run_over (F : formatting)
    (open_and_verify : string -> list byte -> option exn)
    (print_removal os_remove : string -> option exn)
    (entries : list (string * string * list byte)) (p : Cleanup.progress)
  : list (string * string * list byte) * Cleanup.progress * option exn :=
  match entries with
  | [] => ([], p, None)
  | entry :: rest =>
      let counted :=
        {| Cleanup.total_files := S (Cleanup.total_files p);
           Cleanup.corrupted_count := Cleanup.corrupted_count p;
           Cleanup.printed := Cleanup.printed p |} in
      if survives open_and_verify entry then
        let '(rest', p', raised) :=
          run_over F open_and_verify print_removal os_remove rest counted in
        (entry :: rest', p', raised)
      else
        match handler_exception F open_and_verify print_removal os_remove entry with
        | Some e =>
            (entry :: rest,
             {| Cleanup.total_files := S (Cleanup.total_files p);
                Cleanup.corrupted_count := Cleanup.corrupted_count p;
                Cleanup.printed :=
                  Cleanup.printed p
                  ++ printed_before_raise F open_and_verify print_removal entry |},
             Some e)
        | None =>
            run_over F open_and_verify print_removal os_remove rest
              {| Cleanup.total_files := S (Cleanup.total_files p);
                 Cleanup.corrupted_count := S (Cleanup.corrupted_count p);
                 Cleanup.printed :=
                   Cleanup.printed p ++ removal_lines F open_and_verify entry |}
        end
  end%list.

(** A second verifier for the test folder: like [Fixtures.verify0] on paths
    with an image extension, and accepting every other file. *)
Definition verify_images_only (file_path : string) (data : list byte)
  : option exn :=
  if Cleanup.has_valid_extension file_path
  then Fixtures.verify0 file_path data
  else None.

(** Every file of the tree passes the check of the cleanup. *)
Definition clean_tree (open_and_verify : string -> list byte -> option exn)
    (root : string) (d : Cleanup.dir) : Prop :=
  forall entry, In entry (Cleanup.listing root d) ->
                survives open_and_verify entry = true.

(** The entry of the care catalog for a class index (an empty record for
    an index the catalog does not have). *)
Definition care_entry (i : nat) : App.care_record :=
  match dict_get App.care_instructions i with
  | Some care => care
  | None => {| App.title := ""; App.description := "";
               App.do := []; App.dont := [] |}
  end%list.

(** The names of the four stages as app.py shows them, by class index, and
    as predict.py prints them. *)
Definition stage_names : list string :=
  [ "Early_Vegetative 🌿";
    "Flowering_Initiation 🌼";
    "Fruiting_and_Ripening 🍅";
    "Germination_and_Seedling 🌱" ]%list.

Definition printed_stage_names : list string :=
  [ "Early Vegetative Stage";
    "Flowering Initiation Stage";
    "Fruiting and Ripening";
    "Germination Stage" ]%list.

(** What the page shows for one class of the breakdown: its label, its
    score as a percentage, and whether it is drawn as the prediction. *)
Definition shown_row (F : formatting) (entry : string * Q * bool) : string :=
  let '(label, conf_pct, predicted) := entry in
  let border := if predicted then "2px solid #4CAF50" else "1px solid #ddd" in
  let weight := if predicted then "bold" else "normal" in
  let text_color := if predicted then "#2d5016" else "#666" in
  let bar_color :=
    if predicted then "linear-gradient(90deg, #4CAF50, #45a049)"
    else "linear-gradient(90deg, #e0e0e0, #d0d0d0)" in
  "
            <div style='margin: 15px 0; padding: 12px; border: "
  ++ border
  ++ "; border-radius: 8px; background: #fafafa;'>
                <div style='display: flex; justify-content: space-between; align-items: center; margin-bottom: 8px;'>
                    <span style='font-weight: "
  ++ weight
  ++ "; color: "
  ++ text_color
  ++ "; font-size: 16px;'>"
  ++ label
  ++ "</span>
                    <span style='font-weight: bold; color: "
  ++ text_color
  ++ "; font-size: 16px;'>"
  ++ fmt_1f F conf_pct
  ++ "%</span>
                </div>
                <div style='width: 100%; height: 12px; background-color: #f0f0f0; border-radius: 6px; overflow: hidden;'>
                    <div style='width: "
  ++ fmt_float F conf_pct
  ++ "%; height: 100%; background: "
  ++ bar_color
  ++ "; transition: width 0.5s ease; border-radius: 6px;'></div>
                </div>
            </div>
            ".

(** The breakdown as the page shows it, for the classes listed. *)
Definition shown_breakdown (F : formatting) (entries : list (string * Q * bool))
  : string :=
  "<div style='background: white; padding: 20px; border-radius: 15px; box-shadow: 0 4px 6px rgba(0,0,0,0.1); margin: 10px 0;'>"
  ++ "<h3 style='color: #2d5016; margin-bottom: 15px; text-align: center;'>📈 Confidence Analysis</h3>"
  ++ String.concat "" (map (shown_row F) entries)
  ++ "</div>".

Definition shown_item (item : string) : string :=
  "<li style='margin: 8px 0; padding: 5px 0;'>• "
  ++ item
  ++ "</li>".

(** The care panel as the page shows it, for a title, a description and
    the two lists of advice. *)
Definition shown_care (care_title care_description : string)
    (do_items dont_items : list string) : string :=
  "
        <div style='background: linear-gradient(135deg, #f8f9fa, #e9ecef); padding: 25px; border-radius: 15px; box-shadow: 0 6px 12px rgba(0,0,0,0.1); margin: 15px 0;'>
            <h2 style='color: #2d5016; margin-bottom: 15px; text-align: center; font-size: 24px;'>"
  ++ care_title
  ++ "</h2>
            <p style='color: #555; font-size: 16px; text-align: center; margin-bottom: 25px; font-style: italic;'>"
  ++ care_description
  ++ "</p>
            
            <div style='display: grid; grid-template-columns: 1fr 1fr; gap: 20px; margin-top: 20px;'>
                <div style='background: #d4edda; padding: 20px; border-radius: 12px; border-left: 5px solid #28a745;'>
                    <h3 style='color: #155724; margin-bottom: 15px; font-size: 18px;'>✅ What TO DO:</h3>
                    <ul style='color: #155724; line-height: 1.8; padding-left: 0; list-style: none;'>
        "
  ++ String.concat "" (map shown_item do_items)
  ++ "
                    </ul>
                </div>
                
                <div style='background: #f8d7da; padding: 20px; border-radius: 12px; border-left: 5px solid #dc3545;'>
                    <h3 style='color: #721c24; margin-bottom: 15px; font-size: 18px;'>🚫 What NOT TO DO:</h3>
                    <ul style='color: #721c24; line-height: 1.8; padding-left: 0; list-style: none;'>
        "
  ++ String.concat "" (map shown_item dont_items)
  ++ "
                    </ul>
                </div>
            </div>
        </div>
        ".

(** [v] is the largest entry of [l], and [i] is the first position that
    holds it. *)
Definition is_first_max (l : list Q) (i : nat) (v : Q) : Prop :=
  nth_error l i = Some v /\
  (forall j w, nth_error l j = Some w -> (w <= v)%Q) /\
  (forall j w, (j < i)%nat -> nth_error l j = Some w -> (w < v)%Q).


(* ===================================================================== *)
(** ** Properties                                                         *)
(* ===================================================================== *)

(** *** Reasoning about traced computations *)

Lemma bind_val {E A B} (m : M E A) (k : A -> M E B) tr a tr' :
  m tr = (Val a, tr') -> bind m k tr = k a tr'.
Proof. intros H. unfold bind. now rewrite H. Qed.

Lemma bind_raise {E A B} (m : M E A) (k : A -> M E B) tr e tr' :
  m tr = (Raise e, tr') -> bind m k tr = (Raise e, tr').
Proof. intros H. unfold bind. now rewrite H. Qed.

Lemma try_except_val {E A} (body : M E A) handler tr a tr' :
  body tr = (Val a, tr') -> try_except body handler tr = (Val a, tr').
Proof. intros H. unfold try_except. now rewrite H. Qed.

Lemma try_except_raise {E A} (body : M E A) handler tr e tr' :
  body tr = (Raise e, tr') -> try_except body handler tr = handler e tr'.
Proof. intros H. unfold try_except. now rewrite H. Qed.

(** *** The position of the maximum *)

Lemma is_first_max_snoc_keep l i v x :
  is_first_max l i v -> (x <= v)%Q -> is_first_max (l ++ [x])%list i v.
Proof.
  intros (Hi & Hmax & Hfirst) Hx.
  assert (Hlt : (i < List.length l)%nat)
    by (apply nth_error_Some; rewrite Hi; discriminate).
  repeat split.
  - rewrite nth_error_app1; assumption.
  - intros j w Hj.
    destruct (Nat.lt_ge_cases j (List.length l)) as [Hjl | Hjl].
    + rewrite nth_error_app1 in Hj by assumption. eapply Hmax; eassumption.
    + rewrite nth_error_app2 in Hj by assumption.
      destruct (j - List.length l)%nat as [| k]; simpl in Hj.
      * injection Hj as <-. assumption.
      * destruct k; discriminate.
  - intros j w Hji Hj.
    rewrite nth_error_app1 in Hj by lia. eapply Hfirst; eassumption.
Qed.

Lemma is_first_max_snoc_new l i v x :
  is_first_max l i v -> (v < x)%Q ->
  is_first_max (l ++ [x])%list (List.length l) x.
Proof.
  intros (Hi & Hmax & Hfirst) Hx.
  repeat split.
  - rewrite nth_error_app2 by lia. rewrite Nat.sub_diag. reflexivity.
  - intros j w Hj.
    destruct (Nat.lt_ge_cases j (List.length l)) as [Hjl | Hjl].
    + rewrite nth_error_app1 in Hj by assumption.
      apply Qlt_le_weak. eapply Qle_lt_trans; [eapply Hmax; eassumption | assumption].
    + rewrite nth_error_app2 in Hj by assumption.
      destruct (j - List.length l)%nat as [| k]; simpl in Hj.
      * injection Hj as <-. apply Qle_refl.
      * destruct k; discriminate.
  - intros j w Hjl Hj.
    rewrite nth_error_app1 in Hj by assumption.
    eapply Qle_lt_trans; [eapply Hmax; eassumption | assumption].
Qed.

Lemma argmax_from_first_max :
  forall t pre best_i best,
    is_first_max pre best_i best ->
    exists v,
      is_first_max (pre ++ t)%list
        (argmax_from best_i best (List.length pre) t) v.
Proof.
  induction t as [| x t IH]; intros pre best_i best Hpre; simpl.
  - exists best. rewrite app_nil_r. assumption.
  - replace (pre ++ x :: t)%list with ((pre ++ [x]) ++ t)%list
      by (rewrite <- app_assoc; reflexivity).
    replace (S (List.length pre)) with (List.length (pre ++ [x])%list)
      by (rewrite length_app; simpl; lia).
    destruct (Qle_bool x best) eqn:Hle.
    + apply IH. apply is_first_max_snoc_keep; [assumption |].
      apply Qle_bool_iff. assumption.
    + apply IH. eapply is_first_max_snoc_new; [eassumption |].
      apply Qnot_le_lt. intros Hc. apply Qle_bool_iff in Hc. congruence.
Qed.

Lemma is_first_max_singleton x : is_first_max [x] 0 x.
Proof.
  repeat split.
  - intros [| [| j]] w Hj; simpl in Hj; try discriminate.
    injection Hj as <-. apply Qle_refl.
  - intros j w Hj. lia.
Qed.

Lemma is_first_max_unique l i v i' v' :
  is_first_max l i v -> is_first_max l i' v' -> i = i' /\ v = v'.
Proof.
  intros (Hi & Hmax & Hfirst) (Hi' & Hmax' & Hfirst').
  assert (i = i') as ->.
  { destruct (Nat.lt_trichotomy i i') as [Hlt | [Heq | Hgt]]; [| assumption |].
    - exfalso. apply (Qlt_irrefl v).
      eapply Qlt_le_trans; [eapply Hfirst'; eassumption | eapply Hmax; eassumption].
    - exfalso. apply (Qlt_irrefl v').
      eapply Qlt_le_trans; [eapply Hfirst; eassumption | eapply Hmax'; eassumption]. }
  split; [reflexivity | congruence].
Qed.

(** [np.argmax] of a non-empty sequence returns the first position of its
    maximum, and of an empty one raises. *)
Lemma argmax_first_max {E} (l : list Q) (tr : list E) :
  l <> [] ->
  exists i v, argmax l tr = (Val i, tr) /\ is_first_max l i v.
Proof.
  destruct l as [| x t]; [congruence | intros _].
  destruct (argmax_from_first_max t [x] 0%nat x (is_first_max_singleton x))
    as (v & Hv).
  exists (argmax_from 0 x 1 t), v. split; [reflexivity | exact Hv].
Qed.

Lemma argmax_of_first_max {E} (l : list Q) i v (tr : list E) :
  is_first_max l i v -> argmax l tr = (Val i, tr).
Proof.
  intros H.
  assert (Hne : l <> []).
  { destruct H as (Hi & _). destruct l; [destruct i; discriminate | discriminate]. }
  destruct (argmax_first_max l tr Hne) as (i' & v' & Hrun & H').
  destruct (is_first_max_unique _ _ _ _ _ H H') as (-> & _). exact Hrun.
Qed.

(** *** The steps of the pipeline *)

Lemma load_img_ok I path target img tr :
  pil_open I path = inr img ->
  load_img I path target tr
  = (Val (to_target I img target), (tr ++ [LoadImg path])%list).
Proof. intros H. unfold load_img, bind, call. rewrite H. reflexivity. Qed.

Lemma load_img_fails I path target e tr :
  pil_open I path = inl e ->
  load_img I path target tr = (Raise e, (tr ++ [LoadImg path])%list).
Proof. intros H. unfold load_img, bind, call. rewrite H. reflexivity. Qed.

Lemma classify_image_open_fails F I g path e tr :
  pil_open I path = inl e ->
  App.classify_image F I g path tr = (Raise e, (tr ++ [LoadImg path])%list).
Proof.
  intros H. unfold App.classify_image.
  apply bind_raise. apply load_img_fails. assumption.
Qed.

Lemma classify_image_predict_fails F I g m path img e tr :
  pil_open I path = inr img ->
  App.model g = Some m ->
  m (tensor_of I img) = inl e ->
  App.classify_image F I g path tr
  = (Raise e, (tr ++ [LoadImg path; Predict (tensor_of I img)])%list).
Proof.
  intros Hopen Hm Hfail. unfold App.classify_image.
  erewrite bind_val by (apply load_img_ok; eassumption).
  apply bind_raise. unfold App.model_predict. rewrite Hm.
  fold (tensor_of I img). unfold call. rewrite Hfail.
  rewrite <- app_assoc. reflexivity.
Qed.

Lemma classify_image_scored F I g m path img prediction tr :
  pil_open I path = inr img ->
  App.model g = Some m ->
  m (tensor_of I img) = inr prediction ->
  App.classify_image F I g path tr
  = App.present F prediction
      (tr ++ [LoadImg path; Predict (tensor_of I img)])%list.
Proof.
  intros Hopen Hm Hok. unfold App.classify_image.
  erewrite bind_val by (apply load_img_ok; eassumption).
  apply bind_val. unfold App.model_predict. rewrite Hm.
  fold (tensor_of I img). unfold call. rewrite Hok.
  rewrite <- app_assoc. reflexivity.
Qed.

Lemma getitem_ok {E A} (a : list A) i x (tr : list E) :
  nth_error a i = Some x -> getitem a i tr = (Val x, tr).
Proof. intros H. unfold getitem. rewrite H. reflexivity. Qed.

Lemma dict_getitem_ok {E V} (d : dict V) k v (tr : list E) :
  dict_get d k = Some v -> dict_getitem d k tr = (Val v, tr).
Proof. intros H. unfold dict_getitem. rewrite H. reflexivity. Qed.

Lemma dict_getitem_missing {E V} (d : dict V) k (tr : list E) :
  dict_get d k = None -> dict_getitem (event := E) d k tr = (Raise (KeyError k), tr).
Proof. intros H. unfold dict_getitem. rewrite H. reflexivity. Qed.

(** The loop over the catalog succeeds when every key indexes the scores,
    and makes one row per entry, in order. *)
Lemma for_each_rows confidences predicted :
  forall (entries : list (nat * string)) tr,
    (forall item, In item entries -> (fst item < List.length confidences)%nat) ->
    exists rows,
      App.for_each (App.confidence_row_of confidences predicted) entries tr
      = (Val rows, tr)
      /\ Forall2 (row_matches confidences predicted) entries rows.
Proof.
  induction entries as [| [k label] entries IH]; intros tr Hkeys.
  - exists []%list. split; [reflexivity | constructor].
  - destruct (nth_error confidences k) as [c |] eqn:Hc.
    2:{ apply nth_error_None in Hc.
        specialize (Hkeys (k, label) (or_introl eq_refl)). simpl in Hkeys. lia. }
    destruct (IH tr) as (rows & Hrows & Hall).
    { intros item Hin. apply Hkeys. right. assumption. }
    assert (Hrow : exists r,
               App.confidence_row_of confidences predicted (k, label) tr
               = (Val r, tr)
               /\ row_matches confidences predicted (k, label) r).
    { unfold App.confidence_row_of.
      erewrite bind_val by (apply getitem_ok; eassumption).
      destruct (Nat.eqb k predicted) eqn:Hk.
      - eexists. split; [reflexivity |].
        apply Nat.eqb_eq in Hk.
        unfold row_matches; simpl.
        split; [reflexivity |]. split; [reflexivity |].
        split; [exists c; split; [assumption | reflexivity] |].
        split; intros Hx; [| congruence].
        unfold drawn_as_predicted; simpl. repeat split.
      - eexists. split; [reflexivity |].
        apply Nat.eqb_neq in Hk.
        unfold row_matches; simpl.
        split; [reflexivity |]. split; [reflexivity |].
        split; [exists c; split; [assumption | reflexivity] |].
        split; intros Hx; [congruence |].
        unfold drawn_as_other; simpl. repeat split. }
    destruct Hrow as (r & Hr & Hmatch).
    exists (r :: rows)%list. split.
    + simpl. erewrite bind_val by eassumption.
      erewrite bind_val by eassumption. reflexivity.
    + constructor; assumption.
Qed.

Lemma class_labels_keys :
  forall item, In item (items App.class_labels) -> (fst item < 4)%nat.
Proof.
  intros item Hin. unfold items, App.class_labels in Hin. simpl in Hin.
  repeat (destruct Hin as [<- | Hin]; [simpl; lia |]). contradiction.
Qed.

(** The answer of the network is presented in full when the scores cover
    the catalog and the first maximum is a catalog index. *)
Lemma present_first_max F confidences rest i v label care tr :
  is_first_max confidences i v ->
  (4 <= List.length confidences)%nat ->
  dict_get App.class_labels i = Some label ->
  dict_get App.care_instructions i = Some care ->
  exists rows,
    App.present F (confidences :: rest) tr
    = (Val (App.result_text_of F label v,
            App.confidence_markup F rows,
            App.care_markup care), tr)
    /\ Forall2 (row_matches confidences i) (items App.class_labels) rows.
Proof.
  intros Hmax Hlen Hlabel Hcare.
  destruct (for_each_rows confidences i (items App.class_labels) tr)
    as (rows & Hrows & Hall).
  { intros item Hin. apply class_labels_keys in Hin. lia. }
  exists rows. split; [| exact Hall].
  unfold App.present.
  erewrite bind_val by (apply getitem_ok; reflexivity).
  erewrite bind_val by (eapply argmax_of_first_max; eassumption).
  erewrite bind_val by (apply getitem_ok; apply Hmax).
  erewrite bind_val by (apply dict_getitem_ok; eassumption).
  erewrite bind_val by eassumption.
  erewrite bind_val by (apply dict_getitem_ok; eassumption).
  reflexivity.
Qed.

(** A first maximum outside the catalog ends the presentation with the
    [KeyError] of the label lookup. *)
Lemma present_unknown_label F confidences rest i v tr :
  is_first_max confidences i v ->
  dict_get App.class_labels i = None ->
  App.present F (confidences :: rest) tr = (Raise (KeyError i), tr).
Proof.
  intros Hmax Hnone. unfold App.present.
  erewrite bind_val by (apply getitem_ok; reflexivity).
  erewrite bind_val by (eapply argmax_of_first_max; eassumption).
  erewrite bind_val by (apply getitem_ok; apply Hmax).
  apply bind_raise. apply dict_getitem_missing. assumption.
Qed.

(** Whatever happens inside the [try], the callback returns a triple. *)
Lemma predict_growth_stage_returns F I g img_file tr :
  exists t tr', App.predict_growth_stage F I g img_file tr = (Val t, tr').
Proof.
  unfold App.predict_growth_stage.
  destruct (App.model_loaded g); simpl.
  - destruct img_file as [path |].
    + unfold try_except.
      destruct (App.classify_image F I g path tr) as [[t | e] tr'];
        eexists; eexists; reflexivity.
    + eexists; eexists; reflexivity.
  - eexists; eexists; reflexivity.
Qed.

Lemma predict_growth_stage_caught F I g path e tr tr' :
  App.model_loaded g = true ->
  App.classify_image F I g path tr = (Raise e, tr') ->
  App.predict_growth_stage F I g (Some path) tr = (Val (error_result F e), tr').
Proof.
  intros Hg Hraise. unfold App.predict_growth_stage. rewrite Hg. simpl.
  erewrite try_except_raise by eassumption. reflexivity.
Qed.

Lemma predict_growth_stage_passes F I g path t tr tr' :
  App.model_loaded g = true ->
  App.classify_image F I g path tr = (Val t, tr') ->
  App.predict_growth_stage F I g (Some path) tr = (Val t, tr').
Proof.
  intros Hg Hval. unfold App.predict_growth_stage. rewrite Hg. simpl.
  apply try_except_val. assumption.
Qed.

Lemma is_first_max_scan x t v :
  nth_error (x :: t) (argmax_from 0 x 1 t) = Some v ->
  is_first_max (x :: t) (argmax_from 0 x 1 t) v.
Proof.
  intros Hv.
  destruct (argmax_from_first_max t [x] 0%nat x (is_first_max_singleton x))
    as (v' & Hmax).
  simpl in Hmax. destruct Hmax as (Hi & Hrest).
  assert (v' = v) as -> by congruence.
  split; assumption.
Qed.

Lemma is_first_max_in_range l i v :
  is_first_max l i v -> (i < List.length l)%nat.
Proof.
  intros (Hi & _). apply nth_error_Some. rewrite Hi. discriminate.
Qed.

Lemma catalog_total i :
  (i < 4)%nat ->
  exists label care plabel,
    dict_get App.class_labels i = Some label /\
    dict_get App.care_instructions i = Some care /\
    dict_get Predict.class_labels i = Some plabel.
Proof.
  intros Hi.
  do 4 (destruct i as [| i];
        [eexists; eexists; eexists; repeat split; reflexivity |]).
  lia.
Qed.

Lemma catalog_misses i :
  (4 <= i)%nat -> dict_get App.class_labels i = None.
Proof.
  intros Hi. do 4 (destruct i as [| i]; [lia |]). reflexivity.
Qed.

Lemma preprocess_image_ok I path img tr :
  pil_open I path = inr img ->
  Predict.preprocess_image I path tr
  = (Val (tensor_of I img), (tr ++ [LoadImg path])%list).
Proof.
  intros Hopen. unfold Predict.preprocess_image.
  erewrite bind_val by (apply load_img_ok; eassumption).
  reflexivity.
Qed.

Lemma predict_stage_prints F I m path img scores rest i v plabel tr :
  pil_open I path = inr img ->
  m (tensor_of I img) = inr (scores :: rest) ->
  is_first_max scores i v ->
  dict_get Predict.class_labels i = Some plabel ->
  Predict.predict_stage F I m path tr
  = (Val tt,
     (tr ++ [LoadImg path; Predict (tensor_of I img);
             Print ("Prediction probabilities: " ++ fmt_array F scores);
             Print ("The model predicts this plant is in the: " ++ plabel)])%list).
Proof.
  intros Hopen Hm Hmax Hlabel. unfold Predict.predict_stage.
  erewrite bind_val by (apply preprocess_image_ok; eassumption).
  erewrite bind_val by (unfold call; rewrite Hm; reflexivity).
  erewrite bind_val by (apply getitem_ok; reflexivity).
  erewrite bind_val by (eapply argmax_of_first_max; eassumption).
  erewrite bind_val by (apply getitem_ok; reflexivity).
  erewrite bind_val by (unfold Predict.print, call; reflexivity).
  erewrite bind_val by (apply dict_getitem_ok; eassumption).
  unfold Predict.print, call.
  repeat rewrite <- app_assoc. reflexivity.
Qed.

(** *** Degraded states *)

(** C1. When loading the classifier failed at startup, every call, with a
    path or with no input, returns the model-unavailable triple and leaves
    the trace as it was: neither the image loader nor the network is
    called. *)
Theorem C1_model_unavailable :
  forall F I load_model e img_file tr,
    load_model App.model_file = inl e ->
    App.predict_growth_stage F I (App.startup load_model) img_file tr
    = (Val ("❌ Model not loaded. Please check if the model file exists.", "", ""),
       tr).
Proof.
  intros F I load_model e img_file tr Hload.
  unfold App.predict_growth_stage, App.startup.
  rewrite Hload. reflexivity.
Qed.

Lemma C1_model_unavailable_witness :
  App.predict_growth_stage Fixtures.F0 Fixtures.I0
    (App.startup Fixtures.load_fails) (Some "leaf.png") []
  = (Val ("❌ Model not loaded. Please check if the model file exists.", "", ""),
     []).
Proof.
  apply (C1_model_unavailable Fixtures.F0 Fixtures.I0 Fixtures.load_fails
           (OtherException "OSError" "No file or directory found")).
  reflexivity.
Defined.

(** C7. With a loaded classifier, a call with no input returns the
    no-input triple and leaves the trace as it was. *)
Theorem C7_no_input :
  forall F I g tr,
    App.model_loaded g = true ->
    App.predict_growth_stage F I g None tr
    = (Val ("📤 Please upload an image first.", "", ""), tr).
Proof.
  intros F I g tr Hg.
  unfold App.predict_growth_stage. rewrite Hg. reflexivity.
Qed.

Lemma C7_no_input_witness :
  App.predict_growth_stage Fixtures.F0 Fixtures.I0
    (Fixtures.loaded (Fixtures.constant_model Fixtures.fruiting)) None []
  = (Val ("📤 Please upload an image first.", "", ""), []).
Proof.
  apply (C7_no_input Fixtures.F0 Fixtures.I0). reflexivity.
Defined.

(** *** Failures inside the call *)

(** C3. With a loaded classifier, a failure of the image loader (the path
    is no readable file, the file is no image) or of the network is caught
    and returned as the error triple carrying its text; the network is not
    called after a loader failure; any exception raised inside the [try] is
    returned this way, and no call ends in an exception. *)
Theorem C3_failures_are_caught :
  forall F I g path tr,
    App.model_loaded g = true ->
    (forall e,
        pil_open I path = inl e ->
        App.predict_growth_stage F I g (Some path) tr
        = (Val (error_result F e), (tr ++ [LoadImg path])%list))
    /\ (forall img m e,
        pil_open I path = inr img ->
        App.model g = Some m ->
        m (tensor_of I img) = inl e ->
        App.predict_growth_stage F I g (Some path) tr
        = (Val (error_result F e),
           (tr ++ [LoadImg path; Predict (tensor_of I img)])%list))
    /\ (forall e tr',
        App.classify_image F I g path tr = (Raise e, tr') ->
        App.predict_growth_stage F I g (Some path) tr
        = (Val (error_result F e), tr'))
    /\ (forall img_file,
        exists t tr',
          App.predict_growth_stage F I g img_file tr = (Val t, tr')).
Proof.
  intros F I g path tr Hg. repeat split.
  - intros e Hopen. apply predict_growth_stage_caught; [assumption |].
    apply classify_image_open_fails. assumption.
  - intros img m e Hopen Hm Hfail.
    apply predict_growth_stage_caught; [assumption |].
    eapply classify_image_predict_fails; eassumption.
  - intros e tr' Hraise. apply predict_growth_stage_caught; assumption.
  - intros img_file. apply predict_growth_stage_returns.
Qed.

Lemma C3_failures_are_caught_witness :
  App.predict_growth_stage Fixtures.F0 Fixtures.I0
    (Fixtures.loaded (Fixtures.constant_model Fixtures.fruiting))
    (Some "missing.jpg") []
  = (Val ("❌ An error occurred: No such file or directory", "", ""),
     [LoadImg "missing.jpg"])
  /\ App.predict_growth_stage Fixtures.F0 Fixtures.I0
       (Fixtures.loaded (Fixtures.constant_model Fixtures.fruiting))
       (Some "notes.txt") []
     = (Val ("❌ An error occurred: cannot identify image file", "", ""),
        [LoadImg "notes.txt"])
  /\ App.predict_growth_stage Fixtures.F0 Fixtures.I0
       (Fixtures.loaded Fixtures.broken_model) (Some "leaf.png") []
     = (Val ("❌ An error occurred: incompatible shapes", "", ""),
        [LoadImg "leaf.png"; Predict (tensor_of Fixtures.I0 Fixtures.two_pixels)]).
Proof.
  split; [| split].
  - apply (proj1 (C3_failures_are_caught Fixtures.F0 Fixtures.I0
             (Fixtures.loaded (Fixtures.constant_model Fixtures.fruiting))
             "missing.jpg" [] eq_refl)
             (FileNotFoundError "No such file or directory")).
    reflexivity.
  - apply (proj1 (C3_failures_are_caught Fixtures.F0 Fixtures.I0
             (Fixtures.loaded (Fixtures.constant_model Fixtures.fruiting))
             "notes.txt" [] eq_refl)
             (UnidentifiedImageError "cannot identify image file")).
    reflexivity.
  - apply (proj1 (proj2 (C3_failures_are_caught Fixtures.F0 Fixtures.I0
             (Fixtures.loaded Fixtures.broken_model) "leaf.png" [] eq_refl))
             Fixtures.two_pixels Fixtures.broken_model
             (OtherException "InvalidArgumentError" "incompatible shapes"));
      reflexivity.
Defined.

(** C10. Every call returns a triple of strings; when the classifier is
    not loaded, when no input is given, or when the [try] caught an
    exception, the second and the third string are empty. *)
Theorem C10_error_paths_have_empty_markup :
  forall F I g img_file tr,
    exists text confidence_html care_html tr',
      App.predict_growth_stage F I g img_file tr
      = (Val (text, confidence_html, care_html), tr')
      /\ ((App.model_loaded g = false
           \/ img_file = None
           \/ (exists path e tr1,
                  img_file = Some path
                  /\ App.classify_image F I g path tr = (Raise e, tr1)))
          -> confidence_html = "" /\ care_html = "").
Proof.
  intros F I g img_file tr. unfold App.predict_growth_stage.
  destruct (App.model_loaded g) eqn:Hg; simpl.
  2:{ do 4 eexists. split; [reflexivity | intros _; split; reflexivity]. }
  destruct img_file as [path |].
  2:{ do 4 eexists. split; [reflexivity | intros _; split; reflexivity]. }
  unfold try_except.
  destruct (App.classify_image F I g path tr) as [[[[text c] h] | e] tr'] eqn:Hrun.
  - exists text, c, h, tr'. split; [reflexivity |].
    intros [Hf | [Hn | (p & e & tr1 & Hp & Hraise)]]; try discriminate.
    injection Hp as <-. rewrite Hrun in Hraise. discriminate.
  - do 4 eexists. split; [reflexivity | intros _; split; reflexivity].
Qed.

(** *** A winning index outside the catalog *)

(** C4 as the code has it. When the first maximum of the scores is at an
    index outside the catalog, the label lookup raises [KeyError], the
    [try] catches it, and the call returns the ordinary error triple. *)
Theorem C4_unknown_label_is_caught :
  forall F I g m path img confidences rest i v tr,
    App.model_loaded g = true ->
    App.model g = Some m ->
    pil_open I path = inr img ->
    m (tensor_of I img) = inr (confidences :: rest) ->
    is_first_max confidences i v ->
    (4 <= i)%nat ->
    App.predict_growth_stage F I g (Some path) tr
    = (Val ("❌ An error occurred: " ++ repr_index F i, "", ""),
       (tr ++ [LoadImg path; Predict (tensor_of I img)])%list).
Proof.
  intros F I g m path img confidences rest i v tr Hg Hm Hopen Hscores Hmax Hi.
  change ("❌ An error occurred: " ++ repr_index F i, "", "")
    with (error_result F (KeyError i)).
  apply predict_growth_stage_caught; [assumption |].
  erewrite classify_image_scored by eassumption.
  eapply present_unknown_label; [eassumption |].
  apply catalog_misses. assumption.
Qed.

Lemma C4_unknown_label_is_caught_witness :
  App.predict_growth_stage Fixtures.F0 Fixtures.I0
    (Fixtures.loaded (Fixtures.constant_model Fixtures.five_classes))
    (Some "leaf.png") []
  = (Val ("❌ An error occurred: 4", "", ""),
     [LoadImg "leaf.png"; Predict (tensor_of Fixtures.I0 Fixtures.two_pixels)]).
Proof.
  apply (C4_unknown_label_is_caught Fixtures.F0 Fixtures.I0
           (Fixtures.loaded (Fixtures.constant_model Fixtures.five_classes))
           (Fixtures.constant_model Fixtures.five_classes)
           "leaf.png" Fixtures.two_pixels Fixtures.five_classes [] 4%nat (9 # 10)%Q []
           eq_refl eq_refl eq_refl eq_refl).
  - apply (is_first_max_scan 0%Q [ 0; 1 # 10; 0; 9 # 10 ]%Q). reflexivity.
  - lia.
Defined.

(** C4 as stated fails: scores whose largest entry is at index 4 make the
    label lookup fail, and the call does not end in an exception; it
    returns the same kind of error triple as any other failure. *)
Lemma C4_unknown_label_does_not_escalate :
  dict_get App.class_labels 4 = None
  /\ is_first_max Fixtures.five_classes 4 (9 # 10)%Q
  /\ fst (run (App.predict_growth_stage Fixtures.F0 Fixtures.I0
                 (Fixtures.loaded (Fixtures.constant_model Fixtures.five_classes))
                 (Some "leaf.png")))
     = Val (error_result Fixtures.F0 (KeyError 4))
  /\ forall e,
       fst (run (App.predict_growth_stage Fixtures.F0 Fixtures.I0
                   (Fixtures.loaded (Fixtures.constant_model Fixtures.five_classes))
                   (Some "leaf.png")))
       <> Raise e.
Proof.
  assert (Hmax : is_first_max Fixtures.five_classes 4 (9 # 10)%Q)
    by (apply (is_first_max_scan 0%Q [ 0; 1 # 10; 0; 9 # 10 ]%Q); reflexivity).
  assert (Hrun :
    App.predict_growth_stage Fixtures.F0 Fixtures.I0
      (Fixtures.loaded (Fixtures.constant_model Fixtures.five_classes))
      (Some "leaf.png") []
    = (Val (error_result Fixtures.F0 (KeyError 4)),
       ([] ++ [LoadImg "leaf.png"; Predict (tensor_of Fixtures.I0 Fixtures.two_pixels)])%list)).
  { apply predict_growth_stage_caught; [reflexivity |].
    erewrite classify_image_scored by reflexivity.
    eapply present_unknown_label; [exact Hmax | reflexivity]. }
  split; [reflexivity |]. split; [exact Hmax |].
  unfold run. rewrite Hrun. split; [reflexivity | discriminate].
Qed.

(** *** The preprocessed tensor *)

Lemma to_target_size I img h w :
  size (to_target I img (h, w)) = (w, h).
Proof.
  unfold to_target. cbn [fst snd].
  destruct (size_eqb (size img) (w, h)) eqn:Heq; [| reflexivity].
  unfold size_eqb in Heq. cbn [fst snd] in Heq.
  apply andb_true_iff in Heq. destruct Heq as (Hw & Hh).
  apply Nat.eqb_eq in Hw. apply Nat.eqb_eq in Hh.
  destruct (size img) as [w0 h0]. cbn [fst snd] in *. congruence.
Qed.

Lemma to_target_resamples I img h w :
  size img <> (w, h) ->
  getpixel (to_target I img (h, w)) = pil_resample I img (w, h).
Proof.
  intros Hne. unfold to_target. cbn [fst snd].
  destruct (size_eqb (size img) (w, h)) eqn:Heq; [| reflexivity].
  exfalso. apply Hne.
  unfold size_eqb in Heq. cbn [fst snd] in Heq.
  apply andb_true_iff in Heq. destruct Heq as (Hw & Hh).
  apply Nat.eqb_eq in Hw. apply Nat.eqb_eq in Hh.
  destruct (size img) as [w0 h0]. cbn [fst snd] in *. congruence.
Qed.

Lemma img_to_array_shape img :
  has_shape3 (snd (size img)) (fst (size img)) 3 (img_to_array img).
Proof.
  unfold has_shape3, img_to_array. split.
  - rewrite length_map, length_seq. reflexivity.
  - apply Forall_map, Forall_forall. intros y _. split.
    + rewrite length_map, length_seq. reflexivity.
    + apply Forall_map, Forall_forall. intros x _. reflexivity.
Qed.

Lemma map3_shape (f : Q -> Q) h w c a :
  has_shape3 h w c a -> has_shape3 h w c (map (map (map f)) a).
Proof.
  intros (Hlen & Hrows). split; [rewrite length_map; assumption |].
  apply Forall_map. eapply Forall_impl; [| exact Hrows].
  intros row (Hw & Hpx). split; [rewrite length_map; assumption |].
  apply Forall_map. eapply Forall_impl; [| exact Hpx].
  intros px Hc. rewrite length_map. assumption.
Qed.

Lemma channel_in_unit_interval b : in_unit_interval (channel b / 255)%Q.
Proof.
  unfold in_unit_interval, channel.
  pose proof (Byte.to_N_bounded b) as Hb.
  split.
  - apply Qle_shift_div_l; [reflexivity |].
    rewrite Qmult_0_l. unfold Qle; simpl. lia.
  - apply Qle_shift_div_r; [reflexivity |].
    rewrite Qmult_1_l. unfold Qle; simpl. lia.
Qed.

Lemma tensor_of_shape I img : has_shape4 1 224 224 3 (tensor_of I img).
Proof.
  unfold tensor_of, idiv, expand_dims0, has_shape4.
  split; [reflexivity |].
  apply Forall_map. constructor; [| constructor].
  apply map3_shape.
  pose proof (img_to_array_shape (to_target I img (App.img_width, App.img_height)))
    as Hshape.
  rewrite to_target_size in Hshape. exact Hshape.
Qed.

Lemma tensor_of_values I img : all_values in_unit_interval (tensor_of I img).
Proof.
  unfold all_values, tensor_of, idiv, expand_dims0, img_to_array.
  apply Forall_map. constructor; [| constructor].
  apply Forall_map, Forall_map, Forall_forall. intros y _.
  apply Forall_map, Forall_map, Forall_forall. intros x _.
  repeat constructor; apply channel_in_unit_interval.
Qed.

Lemma tensor_of_entries I img x y :
  (x < 224)%nat -> (y < 224)%nat ->
  tensor_at (tensor_of I img) 0 y x 0
  = Some (channel (red (getpixel (to_target I img (224, 224)%nat) x y)) / 255)%Q
  /\ tensor_at (tensor_of I img) 0 y x 1
     = Some (channel (green (getpixel (to_target I img (224, 224)%nat) x y)) / 255)%Q
  /\ tensor_at (tensor_of I img) 0 y x 2
     = Some (channel (blue (getpixel (to_target I img (224, 224)%nat) x y)) / 255)%Q.
Proof.
  intros Hx Hy.
  pose proof (to_target_size I img 224 224) as Hsize.
  unfold tensor_at, tensor_of, idiv, expand_dims0, img_to_array,
    App.img_width, App.img_height.
  cbn [nth_error map].
  rewrite !nth_error_map, nth_error_seq, Hsize. cbn [fst snd].
  apply Nat.ltb_lt in Hy. rewrite Hy. cbn [option_map Nat.add].
  rewrite !nth_error_map, nth_error_seq.
  apply Nat.ltb_lt in Hx. rewrite Hx. cbn [option_map Nat.add].
  repeat split.
Qed.

(** The presentation of an answer calls nothing. *)
Lemma silent_bind {A B} (m : App.M A) (k : A -> App.M B) :
  silent m -> (forall a, silent (k a)) -> silent (bind m k).
Proof.
  intros Hm Hk tr. unfold bind. specialize (Hm tr).
  destruct (m tr) as [[a | e] tr']; simpl in Hm; subst; [apply Hk | reflexivity].
Qed.

Lemma silent_getitem {A} (a : list A) i : silent (getitem a i).
Proof. intros tr. unfold getitem. destruct (nth_error a i); reflexivity. Qed.

Lemma silent_argmax a : silent (argmax a).
Proof. intros tr. destruct a; reflexivity. Qed.

Lemma silent_dict_getitem {V} (d : dict V) k : silent (dict_getitem d k).
Proof. intros tr. unfold dict_getitem. destruct (dict_get d k); reflexivity. Qed.

Lemma silent_confidence_row_of confidences predicted item :
  silent (App.confidence_row_of confidences predicted item).
Proof.
  destruct item as [k label]. unfold App.confidence_row_of.
  apply silent_bind; [apply silent_getitem |].
  intros c tr. destruct (Nat.eqb k predicted); reflexivity.
Qed.

Lemma silent_for_each {A B} (body : A -> App.M B) l :
  (forall a, silent (body a)) -> silent (App.for_each body l).
Proof.
  intros Hbody. induction l as [| a l IH]; [intros tr; reflexivity |].
  simpl. apply silent_bind; [apply Hbody |]. intros b.
  apply silent_bind; [exact IH |]. intros bs tr. reflexivity.
Qed.

Lemma silent_present F prediction : silent (App.present F prediction).
Proof.
  unfold App.present.
  apply silent_bind; [apply silent_getitem | intros confidences].
  apply silent_bind; [apply silent_argmax | intros i].
  apply silent_bind; [apply silent_getitem | intros v].
  apply silent_bind; [apply silent_dict_getitem | intros label].
  apply silent_bind;
    [apply silent_for_each; intros item; apply silent_confidence_row_of
    | intros rows].
  apply silent_bind; [apply silent_dict_getitem | intros care].
  intros tr. reflexivity.
Qed.

Lemma predict_growth_stage_trace F I g m path img tr :
  App.model_loaded g = true ->
  App.model g = Some m ->
  pil_open I path = inr img ->
  snd (App.predict_growth_stage F I g (Some path) tr)
  = (tr ++ [LoadImg path; Predict (tensor_of I img)])%list.
Proof.
  intros Hg Hm Hopen.
  destruct (m (tensor_of I img)) as [e | prediction] eqn:Hans.
  - erewrite predict_growth_stage_caught;
      [reflexivity | assumption
      | eapply classify_image_predict_fails; eassumption].
  - pose proof (silent_present F prediction
                  (tr ++ [LoadImg path; Predict (tensor_of I img)])%list) as Hs.
    destruct (App.present F prediction
                (tr ++ [LoadImg path; Predict (tensor_of I img)])%list)
      as [[t | e] tr'] eqn:Hp; simpl in Hs; subst tr'.
    + erewrite predict_growth_stage_passes; [reflexivity | assumption |].
      erewrite classify_image_scored by eassumption. exact Hp.
    + erewrite predict_growth_stage_caught; [reflexivity | assumption |].
      erewrite classify_image_scored by eassumption. exact Hp.
Qed.

(** C5. For every picture that decodes, whatever its size, the tensor
    handed to the classifier has shape 1 x 224 x 224 x 3 and entries in
    [0, 1]: the picture is brought to 224 x 224 (resampled when its size
    differs, without regard to its aspect ratio) and every channel value is
    divided by 255.  This is what [preprocess_image] returns and what the
    callback passes to the network. *)
Theorem C5_preprocessed_tensor :
  forall I path img tr,
    pil_open I path = inr img ->
    Predict.preprocess_image I path tr
    = (Val (tensor_of I img), (tr ++ [LoadImg path])%list)
    /\ (forall F g m,
           App.model_loaded g = true ->
           App.model g = Some m ->
           snd (App.predict_growth_stage F I g (Some path) tr)
           = (tr ++ [LoadImg path; Predict (tensor_of I img)])%list)
    /\ has_shape4 1 224 224 3 (tensor_of I img)
    /\ all_values in_unit_interval (tensor_of I img)
    /\ size (to_target I img (224, 224)%nat) = (224, 224)%nat
    /\ (size img <> (224, 224)%nat ->
        getpixel (to_target I img (224, 224)%nat)
        = pil_resample I img (224, 224)%nat)
    /\ (forall x y,
           (x < 224)%nat -> (y < 224)%nat ->
           tensor_at (tensor_of I img) 0 y x 0
           = Some (channel (red (getpixel (to_target I img (224, 224)%nat) x y)) / 255)%Q
           /\ tensor_at (tensor_of I img) 0 y x 1
              = Some (channel (green (getpixel (to_target I img (224, 224)%nat) x y)) / 255)%Q
           /\ tensor_at (tensor_of I img) 0 y x 2
              = Some (channel (blue (getpixel (to_target I img (224, 224)%nat) x y)) / 255)%Q).
Proof.
  intros I path img tr Hopen.
  split; [apply preprocess_image_ok; assumption |].
  split; [intros F g m Hg Hm; eapply predict_growth_stage_trace; eassumption |].
  split; [apply tensor_of_shape |].
  split; [apply tensor_of_values |].
  split; [apply to_target_size |].
  split; [apply to_target_resamples |].
  intros x y Hx Hy. apply tensor_of_entries; assumption.
Qed.

Lemma C5_preprocessed_tensor_witness :
  Predict.preprocess_image Fixtures.I0 "leaf.png" []
  = (Val (tensor_of Fixtures.I0 Fixtures.two_pixels), [LoadImg "leaf.png"])
  /\ has_shape4 1 224 224 3 (tensor_of Fixtures.I0 Fixtures.two_pixels)
  /\ all_values in_unit_interval (tensor_of Fixtures.I0 Fixtures.two_pixels).
Proof.
  destruct (C5_preprocessed_tensor Fixtures.I0 "leaf.png" Fixtures.two_pixels []
              eq_refl) as (Hrun & _ & Hshape & Hvalues & _).
  split; [exact Hrun | split; [exact Hshape | exact Hvalues]].
Defined.

(* ===================================================================== *)
(** ** Further properties of the callback                                 *)
(* ===================================================================== *)

Lemma classify_image_unbound_model F I g path img tr :
  pil_open I path = inr img ->
  App.model g = None ->
  exists e,
    App.classify_image F I g path tr = (Raise e, (tr ++ [LoadImg path])%list).
Proof.
  intros Hopen Hm. eexists. unfold App.classify_image.
  erewrite bind_val by (apply load_img_ok; eassumption).
  apply bind_raise. unfold App.model_predict. rewrite Hm. reflexivity.
Qed.

(** X1. A call makes at most one call to the image loader and at most one
    forward pass, in this order, and prints nothing: no outside call when
    the model is not loaded or no input is given, the loader alone when the
    file does not open (or no model is bound), and otherwise the loader
    followed by one forward pass on the tensor of that very picture. *)
Theorem X1_calls_made_by_one_request :
  forall F I g img_file tr,
    exists evs,
      snd (App.predict_growth_stage F I g img_file tr) = (tr ++ evs)%list
      /\ ((evs = []%list /\ (App.model_loaded g = false \/ img_file = None))
          \/ (exists path,
                 img_file = Some path /\ App.model_loaded g = true
                 /\ evs = [LoadImg path]
                 /\ ((exists e, pil_open I path = inl e) \/ App.model g = None))
          \/ (exists path img m,
                 img_file = Some path /\ App.model_loaded g = true
                 /\ pil_open I path = inr img /\ App.model g = Some m
                 /\ evs = [LoadImg path; Predict (tensor_of I img)])).
Proof.
  intros F I g img_file tr.
  destruct (App.model_loaded g) eqn:Hg.
  2:{ exists []%list. unfold App.predict_growth_stage. rewrite Hg. simpl.
      rewrite app_nil_r. split; [reflexivity | left; split; [reflexivity | now left]]. }
  destruct img_file as [path |].
  2:{ exists []%list. unfold App.predict_growth_stage. rewrite Hg. simpl.
      rewrite app_nil_r. split; [reflexivity | left; split; [reflexivity | now right]]. }
  destruct (pil_open I path) as [e | img] eqn:Hopen.
  { exists [LoadImg path]. split.
    - erewrite predict_growth_stage_caught;
        [reflexivity | assumption | apply classify_image_open_fails; eassumption].
    - right; left. exists path. repeat split. left. exists e. exact Hopen. }
  destruct (App.model g) as [m |] eqn:Hm.
  - exists [LoadImg path; Predict (tensor_of I img)]. split.
    + eapply predict_growth_stage_trace; eassumption.
    + right; right. exists path, img, m. repeat split; assumption.
  - exists [LoadImg path]. split.
    + destruct (classify_image_unbound_model F I g path img tr Hopen Hm)
        as (e & Hrun).
      erewrite predict_growth_stage_caught; [reflexivity | assumption | exact Hrun].
    + right; left. exists path. repeat split. now right.
Qed.

Lemma confidence_row_of_in_range confidences predicted k label tr :
  (k < List.length confidences)%nat ->
  exists r,
    App.confidence_row_of confidences predicted (k, label) tr = (Val r, tr).
Proof.
  intros Hk.
  destruct (nth_error confidences k) as [c |] eqn:Hc.
  2:{ apply nth_error_None in Hc. lia. }
  unfold App.confidence_row_of.
  erewrite bind_val by (apply getitem_ok; eassumption).
  destruct (Nat.eqb k predicted); eexists; reflexivity.
Qed.

(** The loop over the catalog stops at the first key that does not index
    the scores, with the [IndexError] of that subscript. *)
Lemma for_each_out_of_range confidences predicted :
  forall (entries : list (nat * string)) j k label tr,
    nth_error entries j = Some (k, label) ->
    (forall item, In item (firstn j entries) ->
                  (fst item < List.length confidences)%nat) ->
    (List.length confidences <= k)%nat ->
    App.for_each (App.confidence_row_of confidences predicted) entries tr
    = (Raise (IndexError ("index " ++ str_of_nat k
                          ++ " is out of bounds for axis 0 with size "
                          ++ str_of_nat (List.length confidences))), tr).
Proof.
  induction entries as [| [k0 label0] entries IH]; intros j k label tr Hj Hpre Hk.
  - destruct j; discriminate.
  - destruct j as [| j]; simpl in Hj.
    + injection Hj as -> ->. simpl. apply bind_raise.
      unfold App.confidence_row_of. apply bind_raise.
      unfold getitem.
      rewrite (proj2 (nth_error_None confidences k) Hk). reflexivity.
    + destruct (confidence_row_of_in_range confidences predicted k0 label0 tr)
        as (r & Hr).
      { apply (Hpre (k0, label0)). left. reflexivity. }
      simpl. erewrite bind_val by exact Hr.
      apply bind_raise. eapply IH; [eassumption | | assumption].
      intros item Hin. apply Hpre. right. assumption.
Qed.

(** X2. When the network answers fewer than four scores (but at least
    one), the loop over the four labels subscripts the scores out of range:
    the call returns the error triple with the [IndexError] for index [n]
    and size [n], [n] being the number of scores. *)
Theorem X2_fewer_scores_than_labels :
  forall F I g m path img confidences rest tr,
    App.model_loaded g = true ->
    App.model g = Some m ->
    pil_open I path = inr img ->
    m (tensor_of I img) = inr (confidences :: rest) ->
    (0 < List.length confidences < 4)%nat ->
    App.predict_growth_stage F I g (Some path) tr
    = (Val ("❌ An error occurred: index " ++ str_of_nat (List.length confidences)
            ++ " is out of bounds for axis 0 with size "
            ++ str_of_nat (List.length confidences), "", ""),
       (tr ++ [LoadImg path; Predict (tensor_of I img)])%list).
Proof.
  intros F I g m path img confidences rest tr Hg Hm Hopen Hscores Hlen.
  remember (List.length confidences) as n eqn:Hn.
  change ("❌ An error occurred: index " ++ str_of_nat n
          ++ " is out of bounds for axis 0 with size " ++ str_of_nat n, "", "")
    with (error_result F
            (IndexError ("index " ++ str_of_nat n
                         ++ " is out of bounds for axis 0 with size "
                         ++ str_of_nat n))).
  apply predict_growth_stage_caught; [assumption |].
  erewrite classify_image_scored by eassumption.
  assert (Hne : confidences <> []) by (intros ->; simpl in Hn; lia).
  destruct (argmax_first_max (E := event) confidences tr Hne) as (i & v & _ & Hmax).
  assert (Hi : (i < n)%nat) by (rewrite Hn; eapply is_first_max_in_range; eassumption).
  destruct (catalog_total i ltac:(lia)) as (label & care & _ & Hlabel & _ & _).
  unfold App.present.
  erewrite bind_val by (apply getitem_ok; reflexivity).
  erewrite bind_val by (eapply argmax_of_first_max; eassumption).
  erewrite bind_val by (apply getitem_ok; apply Hmax).
  erewrite bind_val by (apply dict_getitem_ok; eassumption).
  apply bind_raise.
  assert (Hentry : exists label_n,
             nth_error (items App.class_labels) n = Some (n, label_n)).
  { destruct n as [| [| [| [| n]]]]; try lia; eexists; reflexivity. }
  destruct Hentry as (label_n & Hentry).
  rewrite Hn at 2.
  eapply for_each_out_of_range; [exact Hentry | | lia].
  intros item Hin. rewrite <- Hn. clear Hn Hentry Hi.
  destruct n as [| [| [| [| n]]]]; try lia; simpl in Hin;
    repeat (destruct Hin as [<- | Hin]; [simpl; lia |]); contradiction.
Qed.

Lemma X2_fewer_scores_than_labels_witness :
  App.predict_growth_stage Fixtures.F0 Fixtures.I0
    (Fixtures.loaded (Fixtures.constant_model [ 3 # 10; 7 # 10 ]%Q))
    (Some "leaf.png") []
  = (Val ("❌ An error occurred: index 2 is out of bounds for axis 0 with size 2",
          "", ""),
     [LoadImg "leaf.png"; Predict (tensor_of Fixtures.I0 Fixtures.two_pixels)]).
Proof.
  apply (X2_fewer_scores_than_labels Fixtures.F0 Fixtures.I0
           (Fixtures.loaded (Fixtures.constant_model [ 3 # 10; 7 # 10 ]%Q))
           (Fixtures.constant_model [ 3 # 10; 7 # 10 ]%Q)
           "leaf.png" Fixtures.two_pixels [ 3 # 10; 7 # 10 ]%Q [] []
           eq_refl eq_refl eq_refl eq_refl).
  simpl. lia.
Defined.

(** X3. An empty answer is an error, not a crash: when the network returns
    no row at all, the subscript [prediction[0]] fails, and when the row of
    scores is empty, [np.argmax] fails; both come back as the error triple
    with the text of that exception. *)
Theorem X3_empty_prediction :
  forall F I g m path img tr,
    App.model_loaded g = true ->
    App.model g = Some m ->
    pil_open I path = inr img ->
    (m (tensor_of I img) = inr []%list ->
     App.predict_growth_stage F I g (Some path) tr
     = (Val ("❌ An error occurred: index 0 is out of bounds for axis 0 with size 0",
             "", ""),
        (tr ++ [LoadImg path; Predict (tensor_of I img)])%list))
    /\ (forall rest,
           m (tensor_of I img) = inr ([] :: rest)%list ->
           App.predict_growth_stage F I g (Some path) tr
           = (Val ("❌ An error occurred: attempt to get argmax of an empty sequence",
                   "", ""),
              (tr ++ [LoadImg path; Predict (tensor_of I img)])%list)).
Proof.
  intros F I g m path img tr Hg Hm Hopen. split.
  - intros Hans.
    change ("❌ An error occurred: index 0 is out of bounds for axis 0 with size 0",
            "", "")
      with (error_result F
              (IndexError "index 0 is out of bounds for axis 0 with size 0")).
    apply predict_growth_stage_caught; [assumption |].
    erewrite classify_image_scored by eassumption. reflexivity.
  - intros rest Hans.
    change ("❌ An error occurred: attempt to get argmax of an empty sequence",
            "", "")
      with (error_result F
              (ValueError "attempt to get argmax of an empty sequence")).
    apply predict_growth_stage_caught; [assumption |].
    erewrite classify_image_scored by eassumption. reflexivity.
Qed.

Lemma X3_empty_prediction_witness :
  App.predict_growth_stage Fixtures.F0 Fixtures.I0
    (Fixtures.loaded (Fixtures.constant_model []))
    (Some "leaf.png") []
  = (Val ("❌ An error occurred: attempt to get argmax of an empty sequence",
          "", ""),
     [LoadImg "leaf.png"; Predict (tensor_of Fixtures.I0 Fixtures.two_pixels)]).
Proof.
  apply (proj2 (X3_empty_prediction Fixtures.F0 Fixtures.I0
           (Fixtures.loaded (Fixtures.constant_model []))
           (Fixtures.constant_model [])
           "leaf.png" Fixtures.two_pixels [] eq_refl eq_refl eq_refl) []).
  reflexivity.
Defined.

(* ===================================================================== *)
(** ** Further properties of predict.py                                   *)
(* ===================================================================== *)

(** X4. predict.py has no handler: a failure to load the model ends the
    script before anything else happens, a failure of the image loader
    leaves [predict_stage] as that exception before the network is called,
    and a failure of the network leaves it as that exception; nothing is
    printed in either case. *)
Theorem X4_predict_script_propagates_failures :
  forall F I path tr,
    (forall load_model e,
        load_model Predict.model_file = inl e ->
        Predict.script F I load_model tr = (Raise e, tr))
    /\ (forall m e,
           pil_open I path = inl e ->
           Predict.predict_stage F I m path tr
           = (Raise e, (tr ++ [LoadImg path])%list))
    /\ (forall m img e,
           pil_open I path = inr img ->
           m (tensor_of I img) = inl e ->
           Predict.predict_stage F I m path tr
           = (Raise e, (tr ++ [LoadImg path; Predict (tensor_of I img)])%list)).
Proof.
  intros F I path tr. split; [| split].
  - intros load_model e Hload. unfold Predict.script. rewrite Hload. reflexivity.
  - intros m e Hopen. unfold Predict.predict_stage, Predict.preprocess_image.
    apply bind_raise. apply bind_raise. apply load_img_fails. assumption.
  - intros m img e Hopen Hfail. unfold Predict.predict_stage.
    erewrite bind_val by (apply preprocess_image_ok; eassumption).
    apply bind_raise. unfold call. rewrite Hfail.
    rewrite <- app_assoc. reflexivity.
Qed.

Lemma X4_predict_script_propagates_failures_witness :
  Predict.script Fixtures.F0 Fixtures.I0 Fixtures.load_fails []
  = (Raise (OtherException "OSError" "No file or directory found"), [])
  /\ Predict.predict_stage Fixtures.F0 Fixtures.I0
       (Fixtures.constant_model Fixtures.fruiting) "missing.jpg" []
     = (Raise (FileNotFoundError "No such file or directory"),
        [LoadImg "missing.jpg"])
  /\ Predict.predict_stage Fixtures.F0 Fixtures.I0 Fixtures.broken_model
       "leaf.png" []
     = (Raise (OtherException "InvalidArgumentError" "incompatible shapes"),
        [LoadImg "leaf.png"; Predict (tensor_of Fixtures.I0 Fixtures.two_pixels)]).
Proof.
  split; [| split].
  - apply (proj1 (X4_predict_script_propagates_failures
                    Fixtures.F0 Fixtures.I0 "leaf.png" [])
             Fixtures.load_fails). reflexivity.
  - apply (proj1 (proj2 (X4_predict_script_propagates_failures
                           Fixtures.F0 Fixtures.I0 "missing.jpg" []))
             (Fixtures.constant_model Fixtures.fruiting)). reflexivity.
  - apply (proj2 (proj2 (X4_predict_script_propagates_failures
                           Fixtures.F0 Fixtures.I0 "leaf.png" []))
             Fixtures.broken_model Fixtures.two_pixels); reflexivity.
Defined.

(** X5. In predict.py a winning index outside the catalog surfaces after
    the first line: the scores are printed, then the label lookup raises
    [KeyError] and the line naming the stage is never printed. *)
Theorem X5_predict_stage_unknown_label :
  forall F I m path img scores rest i v tr,
    pil_open I path = inr img ->
    m (tensor_of I img) = inr (scores :: rest) ->
    is_first_max scores i v ->
    (4 <= i)%nat ->
    Predict.predict_stage F I m path tr
    = (Raise (KeyError i),
       (tr ++ [LoadImg path; Predict (tensor_of I img);
               Print ("Prediction probabilities: " ++ fmt_array F scores)])%list).
Proof.
  intros F I m path img scores rest i v tr Hopen Hm Hmax Hi.
  unfold Predict.predict_stage.
  erewrite bind_val by (apply preprocess_image_ok; eassumption).
  erewrite bind_val by (unfold call; rewrite Hm; reflexivity).
  erewrite bind_val by (apply getitem_ok; reflexivity).
  erewrite bind_val by (eapply argmax_of_first_max; eassumption).
  erewrite bind_val by (apply getitem_ok; reflexivity).
  erewrite bind_val by (unfold Predict.print, call; reflexivity).
  erewrite bind_raise; [| apply dict_getitem_missing].
  - repeat rewrite <- app_assoc. reflexivity.
  - do 4 (destruct i as [| i]; [lia |]). reflexivity.
Qed.

Lemma X5_predict_stage_unknown_label_witness :
  Predict.predict_stage Fixtures.F0 Fixtures.I0
    (Fixtures.constant_model Fixtures.five_classes) "leaf.png" []
  = (Raise (KeyError 4),
     [LoadImg "leaf.png"; Predict (tensor_of Fixtures.I0 Fixtures.two_pixels);
      Print "Prediction probabilities: 0 0 10 0 90"]).
Proof.
  apply (X5_predict_stage_unknown_label Fixtures.F0 Fixtures.I0
           (Fixtures.constant_model Fixtures.five_classes)
           "leaf.png" Fixtures.two_pixels Fixtures.five_classes [] 4%nat (9 # 10)%Q []
           eq_refl eq_refl).
  - apply (is_first_max_scan 0%Q [ 0; 1 # 10; 0; 9 # 10 ]%Q). reflexivity.
  - lia.
Defined.

(** X6. predict.py never subscripts the scores by label, so a row of any
    length is accepted: whenever the first maximum is at a catalog index,
    both lines are printed and the second names the catalog's stage for
    that index; an empty row raises before anything is printed. *)
Theorem X6_predict_stage_any_number_of_scores :
  forall F I m path img tr,
    pil_open I path = inr img ->
    (forall scores rest i v,
        m (tensor_of I img) = inr (scores :: rest) ->
        is_first_max scores i v ->
        (i < 4)%nat ->
        exists plabel,
          dict_get Predict.class_labels i = Some plabel
          /\ Predict.predict_stage F I m path tr
             = (Val tt,
                (tr ++ [LoadImg path; Predict (tensor_of I img);
                        Print ("Prediction probabilities: " ++ fmt_array F scores);
                        Print ("The model predicts this plant is in the: "
                               ++ plabel)])%list))
    /\ (forall rest,
           m (tensor_of I img) = inr ([] :: rest)%list ->
           Predict.predict_stage F I m path tr
           = (Raise (ValueError "attempt to get argmax of an empty sequence"),
              (tr ++ [LoadImg path; Predict (tensor_of I img)])%list)).
Proof.
  intros F I m path img tr Hopen. split.
  - intros scores rest i v Hm Hmax Hi.
    destruct (catalog_total i Hi) as (_ & _ & plabel & _ & _ & Hplabel).
    exists plabel. split; [assumption |].
    eapply predict_stage_prints; eassumption.
  - intros rest Hm. unfold Predict.predict_stage.
    erewrite bind_val by (apply preprocess_image_ok; eassumption).
    erewrite bind_val by (unfold call; rewrite Hm; reflexivity).
    erewrite bind_val by (apply getitem_ok; reflexivity).
    rewrite <- app_assoc. reflexivity.
Qed.

Lemma X6_predict_stage_any_number_of_scores_witness :
  exists plabel,
    dict_get Predict.class_labels 1 = Some plabel
    /\ Predict.predict_stage Fixtures.F0 Fixtures.I0
         (Fixtures.constant_model [ 3 # 10; 7 # 10 ]%Q) "leaf.png" []
       = (Val tt,
          [LoadImg "leaf.png"; Predict (tensor_of Fixtures.I0 Fixtures.two_pixels);
           Print ("Prediction probabilities: "
                  ++ fmt_array Fixtures.F0 [ 3 # 10; 7 # 10 ]%Q);
           Print ("The model predicts this plant is in the: " ++ plabel)]).
Proof.
  apply (proj1 (X6_predict_stage_any_number_of_scores Fixtures.F0 Fixtures.I0
                  (Fixtures.constant_model [ 3 # 10; 7 # 10 ]%Q)
                  "leaf.png" Fixtures.two_pixels [] eq_refl)
           [ 3 # 10; 7 # 10 ]%Q [] 1%nat (7 # 10)%Q eq_refl).
  - apply (is_first_max_scan (3 # 10)%Q [ 7 # 10 ]%Q). reflexivity.
  - lia.
Defined.

(* ===================================================================== *)
(** ** What a successful call returns                                   *)
(* ===================================================================== *)

Lemma app_labels_by_index i :
  dict_get App.class_labels i = nth_error stage_names i.
Proof. do 4 (destruct i as [| i]; [reflexivity |]). destruct i; reflexivity. Qed.

Lemma predict_labels_by_index i :
  dict_get Predict.class_labels i = nth_error printed_stage_names i.
Proof. do 4 (destruct i as [| i]; [reflexivity |]). destruct i; reflexivity. Qed.

Lemma render_row_shown F r :
  (drawn_as_predicted r ->
   App.render_row F r = shown_row F (App.row_label r, App.row_conf_pct r, true))
  /\ (drawn_as_other r ->
      App.render_row F r = shown_row F (App.row_label r, App.row_conf_pct r, false)).
Proof.
  split; intros (Hbar & Htext & Hweight & Hborder);
    unfold App.render_row, shown_row;
    rewrite Hbar, Htext, Hweight, Hborder; reflexivity.
Qed.

Lemma row_matches_shown F confidences i k label r :
  row_matches confidences i (k, label) r ->
  exists c,
    nth_error confidences k = Some c
    /\ App.render_row F r = shown_row F (label, (c * 100)%Q, Nat.eqb k i).
Proof.
  intros (_ & Hlabel & (c & Hc & Hpct) & Hpred & Hother).
  cbn [fst snd] in *. exists c. split; [assumption |].
  destruct (Nat.eqb k i) eqn:Hk.
  - apply Nat.eqb_eq in Hk.
    rewrite (proj1 (render_row_shown F r) (Hpred Hk)), Hlabel, Hpct. reflexivity.
  - apply Nat.eqb_neq in Hk.
    rewrite (proj2 (render_row_shown F r) (Hother Hk)), Hlabel, Hpct. reflexivity.
Qed.

(** The breakdown of four or more scores, as the page shows it. *)
Lemma confidence_markup_shown F c0 c1 c2 c3 more i rows :
  Forall2 (row_matches (c0 :: c1 :: c2 :: c3 :: more) i)
    (items App.class_labels) rows ->
  App.confidence_markup F rows
  = shown_breakdown F
      [ ("Early_Vegetative 🌿", (c0 * 100)%Q, Nat.eqb 0 i);
        ("Flowering_Initiation 🌼", (c1 * 100)%Q, Nat.eqb 1 i);
        ("Fruiting_and_Ripening 🍅", (c2 * 100)%Q, Nat.eqb 2 i);
        ("Germination_and_Seedling 🌱", (c3 * 100)%Q, Nat.eqb 3 i) ].
Proof.
  intros Hrows. unfold items, App.class_labels in Hrows.
  inversion Hrows as [| ? r0 ? rows0 H0 Hrows0]; subst.
  inversion Hrows0 as [| ? r1 ? rows1 H1 Hrows1]; subst.
  inversion Hrows1 as [| ? r2 ? rows2 H2 Hrows2]; subst.
  inversion Hrows2 as [| ? r3 ? rows3 H3 Hrows3]; subst.
  inversion Hrows3; subst.
  destruct (row_matches_shown F _ _ _ _ _ H0) as (x0 & Hx0 & E0).
  destruct (row_matches_shown F _ _ _ _ _ H1) as (x1 & Hx1 & E1).
  destruct (row_matches_shown F _ _ _ _ _ H2) as (x2 & Hx2 & E2).
  destruct (row_matches_shown F _ _ _ _ _ H3) as (x3 & Hx3 & E3).
  simpl in Hx0, Hx1, Hx2, Hx3.
  injection Hx0 as <-. injection Hx1 as <-.
  injection Hx2 as <-. injection Hx3 as <-.
  unfold App.confidence_markup, shown_breakdown.
  cbn [map]. rewrite E0, E1, E2, E3. reflexivity.
Qed.

Lemma at_least_four {A} (l : list A) :
  (4 <= List.length l)%nat ->
  exists c0 c1 c2 c3 more, l = (c0 :: c1 :: c2 :: c3 :: more)%list.
Proof.
  intros Hlen.
  destruct l as [| c0 [| c1 [| c2 [| c3 more]]]]; simpl in Hlen; try lia.
  exists c0, c1, c2, c3, more. reflexivity.
Qed.

(** A presentation that came to its end, read backwards. *)
Lemma bind_returned {E A B} (m : M E A) (k : A -> M E B) tr b tr' :
  bind m k tr = (Val b, tr') ->
  exists a tr1, m tr = (Val a, tr1) /\ k a tr1 = (Val b, tr').
Proof.
  unfold bind. destruct (m tr) as [[a | e] tr1]; intros H; [| discriminate].
  exists a, tr1. split; [reflexivity | assumption].
Qed.

Lemma getitem_returned {E A} (a : list A) i x (tr tr' : list E) :
  getitem a i tr = (Val x, tr') -> nth_error a i = Some x /\ tr' = tr.
Proof.
  unfold getitem. destruct (nth_error a i); intros H; [| discriminate].
  injection H as -> ->. split; reflexivity.
Qed.

Lemma dict_getitem_returned {E V} (d : dict V) k v (tr tr' : list E) :
  dict_getitem d k tr = (Val v, tr') -> dict_get d k = Some v /\ tr' = tr.
Proof.
  unfold dict_getitem. destruct (dict_get d k); intros H; [| discriminate].
  injection H as -> ->. split; reflexivity.
Qed.

Lemma argmax_returned {E} (a : list Q) i (tr tr' : list E) :
  argmax a tr = (Val i, tr') -> (exists v, is_first_max a i v) /\ tr' = tr.
Proof.
  intros H. destruct a as [| x t]; [discriminate |].
  destruct (argmax_first_max (E := E) (x :: t) tr ltac:(discriminate))
    as (i' & v & Hrun & Hmax).
  rewrite Hrun in H. injection H as <- <-.
  split; [exists v; assumption | reflexivity].
Qed.

Lemma confidence_row_of_returned confidences predicted k label r tr tr' :
  App.confidence_row_of confidences predicted (k, label) tr = (Val r, tr') ->
  tr' = tr /\ row_matches confidences predicted (k, label) r.
Proof.
  intros H. unfold App.confidence_row_of in H.
  apply bind_returned in H. destruct H as (c & tr1 & Hc & H).
  apply getitem_returned in Hc. destruct Hc as (Hc & ->).
  destruct (Nat.eqb k predicted) eqn:Hk; injection H as <- <-;
    (split; [reflexivity |]); unfold row_matches; simpl;
    (split; [reflexivity |]); (split; [reflexivity |]);
    (split; [exists c; split; [assumption | reflexivity] |]).
  - apply Nat.eqb_eq in Hk. split; intros Hx; [| congruence].
    unfold drawn_as_predicted; simpl. repeat split.
  - apply Nat.eqb_neq in Hk. split; intros Hx; [congruence |].
    unfold drawn_as_other; simpl. repeat split.
Qed.

Lemma for_each_returned confidences predicted :
  forall (entries : list (nat * string)) rows tr tr',
    App.for_each (App.confidence_row_of confidences predicted) entries tr
    = (Val rows, tr') ->
    tr' = tr /\ Forall2 (row_matches confidences predicted) entries rows.
Proof.
  induction entries as [| [k label] entries IH]; intros rows tr tr' H.
  - injection H as <- <-. split; [reflexivity | constructor].
  - cbn [App.for_each] in H.
    apply bind_returned in H. destruct H as (r & tr1 & Hr & H).
    apply bind_returned in H. destruct H as (rs & tr2 & Hrs & H).
    injection H as <- <-.
    apply IH in Hrs. destruct Hrs as (-> & Hall).
    apply confidence_row_of_returned in Hr. destruct Hr as (-> & Hmatch).
    split; [reflexivity | constructor; assumption].
Qed.

Lemma present_returned F prediction tr t tr' :
  App.present F prediction tr = (Val t, tr') ->
  exists c0 c1 c2 c3 more rest i v label care,
    prediction = ((c0 :: c1 :: c2 :: c3 :: more) :: rest)%list
    /\ is_first_max (c0 :: c1 :: c2 :: c3 :: more) i v
    /\ dict_get App.class_labels i = Some label
    /\ dict_get App.care_instructions i = Some care
    /\ tr' = tr
    /\ t = (App.result_text_of F label v,
            shown_breakdown F
              [ ("Early_Vegetative 🌿", (c0 * 100)%Q, Nat.eqb 0 i);
                ("Flowering_Initiation 🌼", (c1 * 100)%Q, Nat.eqb 1 i);
                ("Fruiting_and_Ripening 🍅", (c2 * 100)%Q, Nat.eqb 2 i);
                ("Germination_and_Seedling 🌱", (c3 * 100)%Q, Nat.eqb 3 i) ],
            App.care_markup care).
Proof.
  intros H. unfold App.present in H.
  apply bind_returned in H. destruct H as (confidences & tr1 & H1 & H).
  apply getitem_returned in H1. destruct H1 as (Hrow & ->).
  apply bind_returned in H. destruct H as (i & tr2 & H2 & H).
  apply argmax_returned in H2. destruct H2 as ((v & Hmax) & ->).
  apply bind_returned in H. destruct H as (v' & tr3 & H3 & H).
  apply getitem_returned in H3. destruct H3 as (Hv & ->).
  assert (v' = v) as -> by (destruct Hmax as (Hi & _); congruence).
  apply bind_returned in H. destruct H as (label & tr4 & H4 & H).
  apply dict_getitem_returned in H4. destruct H4 as (Hlabel & ->).
  apply bind_returned in H. destruct H as (rows & tr5 & H5 & H).
  apply for_each_returned in H5. destruct H5 as (-> & Hrows).
  apply bind_returned in H. destruct H as (care & tr6 & H6 & H).
  apply dict_getitem_returned in H6. destruct H6 as (Hcare & ->).
  injection H as <- <-.
  destruct prediction as [| first rest]; [discriminate |].
  injection Hrow as ->.
  assert (Hlen : (4 <= List.length confidences)%nat).
  { unfold items, App.class_labels in Hrows.
    inversion Hrows as [| ? ? ? ? _ Hrows0]; subst.
    inversion Hrows0 as [| ? ? ? ? _ Hrows1]; subst.
    inversion Hrows1 as [| ? ? ? ? _ Hrows2]; subst.
    inversion Hrows2 as [| ? ? ? ? Hlast _]; subst.
    destruct Hlast as (_ & _ & (c & Hc & _) & _). cbn [fst] in Hc.
    assert (3 < List.length confidences)%nat
      by (apply nth_error_Some; rewrite Hc; discriminate).
    lia. }
  destruct (at_least_four confidences Hlen) as (c0 & c1 & c2 & c3 & more & ->).
  exists c0, c1, c2, c3, more, rest, i, v, label, care.
  repeat (split; [first [reflexivity | assumption] |]).
  rewrite (confidence_markup_shown F c0 c1 c2 c3 more i rows Hrows).
  reflexivity.
Qed.

Lemma classify_image_returned F I g path tr t tr' :
  App.classify_image F I g path tr = (Val t, tr') ->
  exists img m prediction,
    pil_open I path = inr img
    /\ App.model g = Some m
    /\ m (tensor_of I img) = inr prediction
    /\ App.present F prediction
         (tr ++ [LoadImg path; Predict (tensor_of I img)])%list = (Val t, tr').
Proof.
  intros H.
  destruct (pil_open I path) as [e | img] eqn:Hopen.
  { rewrite (classify_image_open_fails F I g path e tr Hopen) in H. discriminate. }
  destruct (App.model g) as [m |] eqn:Hm.
  2:{ destruct (classify_image_unbound_model F I g path img tr Hopen Hm)
        as (e & Hrun).
      rewrite Hrun in H. discriminate. }
  destruct (m (tensor_of I img)) as [e | prediction] eqn:Hans.
  { rewrite (classify_image_predict_fails F I g m path img e tr Hopen Hm Hans) in H.
    discriminate. }
  exists img, m, prediction.
  rewrite (classify_image_scored F I g m path img prediction tr Hopen Hm Hans) in H.
  repeat split; assumption.
Qed.

(** C2 as the code has it. When the first maximum of the scores (ties go
    to the lowest index) is at a catalog index [i], predict.py prints the
    stage of index [i] for a row of any length, and app.py, given at least
    four scores, returns the text naming the stage of index [i] and, as
    confidence, the score at [i]. *)
Theorem C2_reported_label_is_first_max :
  forall F I g m path img confidences rest i v tr,
    App.model_loaded g = true ->
    App.model g = Some m ->
    pil_open I path = inr img ->
    m (tensor_of I img) = inr (confidences :: rest) ->
    is_first_max confidences i v ->
    (i < 4)%nat ->
    exists label plabel,
      nth_error stage_names i = Some label
      /\ nth_error printed_stage_names i = Some plabel
      /\ Predict.predict_stage F I m path tr
         = (Val tt,
            (tr ++ [LoadImg path; Predict (tensor_of I img);
                    Print ("Prediction probabilities: " ++ fmt_array F confidences);
                    Print ("The model predicts this plant is in the: " ++ plabel)])%list)
      /\ ((4 <= List.length confidences)%nat ->
          exists confidence_html care_html,
            App.predict_growth_stage F I g (Some path) tr
            = (Val ("🎯 **Predicted Stage:** " ++ label ++ nl
                    ++ "📊 **Confidence:** " ++ fmt_1f F (v * 100)%Q ++ "%",
                    confidence_html, care_html),
               (tr ++ [LoadImg path; Predict (tensor_of I img)])%list)).
Proof.
  intros F I g m path img confidences rest i v tr Hg Hm Hopen Hscores Hmax Hi.
  destruct (catalog_total i Hi) as (label & care & plabel & Hlabel & Hcare & Hplabel).
  exists label, plabel.
  split; [rewrite <- app_labels_by_index; assumption |].
  split; [rewrite <- predict_labels_by_index; assumption |].
  split; [eapply predict_stage_prints; eassumption |].
  intros Hlen.
  destruct (present_first_max F confidences rest i v label care
              (tr ++ [LoadImg path; Predict (tensor_of I img)])%list Hmax)
    as (rows & Hrun & _); [assumption | assumption | assumption |].
  exists (App.confidence_markup F rows), (App.care_markup care).
  apply predict_growth_stage_passes; [assumption |].
  erewrite classify_image_scored by eassumption. exact Hrun.
Qed.

Lemma C2_reported_label_is_first_max_witness :
  is_first_max Fixtures.tied 1 (4 # 10)%Q
  /\ Predict.predict_stage Fixtures.F0 Fixtures.I0
       (Fixtures.constant_model Fixtures.tied) "leaf.png" []
     = (Val tt,
        [LoadImg "leaf.png"; Predict (tensor_of Fixtures.I0 Fixtures.two_pixels);
         Print "Prediction probabilities: 10 40 40 10";
         Print "The model predicts this plant is in the: Flowering Initiation Stage"])
  /\ exists confidence_html care_html,
       App.predict_growth_stage Fixtures.F0 Fixtures.I0
         (Fixtures.loaded (Fixtures.constant_model Fixtures.tied))
         (Some "leaf.png") []
       = (Val ("🎯 **Predicted Stage:** Flowering_Initiation 🌼" ++ nl
               ++ "📊 **Confidence:** 40%",
               confidence_html, care_html),
          [LoadImg "leaf.png"; Predict (tensor_of Fixtures.I0 Fixtures.two_pixels)]).
Proof.
  assert (Hmax : is_first_max Fixtures.tied 1 (4 # 10)%Q)
    by (apply (is_first_max_scan (1 # 10)%Q [ 4 # 10; 4 # 10; 1 # 10 ]%Q);
        reflexivity).
  destruct (C2_reported_label_is_first_max Fixtures.F0 Fixtures.I0
              (Fixtures.loaded (Fixtures.constant_model Fixtures.tied))
              (Fixtures.constant_model Fixtures.tied)
              "leaf.png" Fixtures.two_pixels Fixtures.tied [] 1%nat (4 # 10)%Q []
              eq_refl eq_refl eq_refl eq_refl Hmax ltac:(lia))
    as (label & plabel & Hlabel & Hplabel & Hprints & Hreturns).
  injection Hlabel as <-. injection Hplabel as <-.
  split; [exact Hmax |]. split; [exact Hprints |].
  apply Hreturns. vm_compute. lia.
Defined.

(** C2 as stated fails: with two scores the first maximum is at index 1,
    and with five scores it can be at index 4; in both cases app.py
    reports no label and no confidence, only the error triple. *)
Lemma C2_no_label_for_some_outputs :
  (is_first_max [ 3 # 10; 7 # 10 ]%Q 1 (7 # 10)%Q
   /\ fst (run (App.predict_growth_stage Fixtures.F0 Fixtures.I0
                  (Fixtures.loaded (Fixtures.constant_model [ 3 # 10; 7 # 10 ]%Q))
                  (Some "leaf.png")))
      = Val ("❌ An error occurred: index 2 is out of bounds for axis 0 with size 2",
             "", ""))
  /\ (is_first_max Fixtures.five_classes 4 (9 # 10)%Q
      /\ fst (run (App.predict_growth_stage Fixtures.F0 Fixtures.I0
                     (Fixtures.loaded (Fixtures.constant_model Fixtures.five_classes))
                     (Some "leaf.png")))
         = Val ("❌ An error occurred: 4", "", "")).
Proof.
  split; split.
  - apply (is_first_max_scan (3 # 10)%Q [ 7 # 10 ]%Q). reflexivity.
  - unfold run.
    erewrite predict_growth_stage_caught;
      [| reflexivity
       | erewrite classify_image_scored by reflexivity; reflexivity].
    reflexivity.
  - apply (is_first_max_scan 0%Q [ 0; 1 # 10; 0; 9 # 10 ]%Q). reflexivity.
  - unfold run.
    erewrite predict_growth_stage_caught;
      [| reflexivity
       | erewrite classify_image_scored by reflexivity; reflexivity].
    reflexivity.
Qed.

(** C8 as the code has it. For at least four scores whose first maximum
    is at a catalog index [i], the call returns the text naming the stage
    of index [i] and the care panel of exactly the catalog's entry for
    [i]: its title, its description, its do list and its don't list. *)
Theorem C8_care_panel_of_predicted_index :
  forall F I g m path img confidences rest i v tr,
    App.model_loaded g = true ->
    App.model g = Some m ->
    pil_open I path = inr img ->
    m (tensor_of I img) = inr (confidences :: rest) ->
    (4 <= List.length confidences)%nat ->
    is_first_max confidences i v ->
    (i < 4)%nat ->
    exists label care confidence_html,
      nth_error stage_names i = Some label
      /\ dict_get App.care_instructions i = Some care
      /\ App.predict_growth_stage F I g (Some path) tr
         = (Val ("🎯 **Predicted Stage:** " ++ label ++ nl
                 ++ "📊 **Confidence:** " ++ fmt_1f F (v * 100)%Q ++ "%",
                 confidence_html,
                 shown_care (App.title care) (App.description care)
                   (App.do care) (App.dont care)),
            (tr ++ [LoadImg path; Predict (tensor_of I img)])%list).
Proof.
  intros F I g m path img confidences rest i v tr Hg Hm Hopen Hscores Hlen Hmax Hi.
  destruct (catalog_total i Hi) as (label & care & _ & Hlabel & Hcare & _).
  destruct (present_first_max F confidences rest i v label care
              (tr ++ [LoadImg path; Predict (tensor_of I img)])%list Hmax)
    as (rows & Hrun & _); [assumption | assumption | assumption |].
  exists label, care, (App.confidence_markup F rows).
  split; [rewrite <- app_labels_by_index; assumption |].
  split; [assumption |].
  apply predict_growth_stage_passes; [assumption |].
  erewrite classify_image_scored by eassumption. exact Hrun.
Qed.

Lemma C8_care_panel_of_predicted_index_witness :
  exists confidence_html do_items dont_items,
    App.predict_growth_stage Fixtures.F0 Fixtures.I0
      (Fixtures.loaded (Fixtures.constant_model Fixtures.fruiting))
      (Some "leaf.png") []
    = (Val ("🎯 **Predicted Stage:** Fruiting_and_Ripening 🍅" ++ nl
            ++ "📊 **Confidence:** 60%",
            confidence_html,
            shown_care "Fruiting and Ripening Stage Care 🍅"
              "Congratulations! Your plant is producing fruits. Focus on supporting healthy fruit development."
              do_items dont_items),
       [LoadImg "leaf.png"; Predict (tensor_of Fixtures.I0 Fixtures.two_pixels)])
    /\ List.length do_items = 7%nat /\ List.length dont_items = 5%nat
    /\ nth_error do_items 0
       = Some "💧 Maintain consistent, deep watering (1-2 inches per week)".
Proof.
  destruct (C8_care_panel_of_predicted_index Fixtures.F0 Fixtures.I0
              (Fixtures.loaded (Fixtures.constant_model Fixtures.fruiting))
              (Fixtures.constant_model Fixtures.fruiting)
              "leaf.png" Fixtures.two_pixels Fixtures.fruiting [] 2%nat (6 # 10)%Q []
              eq_refl eq_refl eq_refl eq_refl)
    as (label & care & confidence_html & Hlabel & Hcare & Hrun).
  - vm_compute. lia.
  - apply (is_first_max_scan (1 # 10)%Q [ 2 # 10; 6 # 10; 1 # 10 ]%Q). reflexivity.
  - lia.
  - injection Hlabel as <-. injection Hcare as <-.
    eexists _, _, _. split; [exact Hrun |].
    repeat split.
Defined.

(** C8 as stated fails: three scores with the largest at index 2, a
    catalog index, give no label and no care panel, only the error triple
    of the subscript that ran out of range. *)
Lemma C8_no_care_panel_for_three_scores :
  is_first_max [ 1 # 10; 2 # 10; 7 # 10 ]%Q 2 (7 # 10)%Q
  /\ fst (run (App.predict_growth_stage Fixtures.F0 Fixtures.I0
                 (Fixtures.loaded
                    (Fixtures.constant_model [ 1 # 10; 2 # 10; 7 # 10 ]%Q))
                 (Some "leaf.png")))
     = Val ("❌ An error occurred: index 3 is out of bounds for axis 0 with size 3",
            "", "").
Proof.
  split.
  - apply (is_first_max_scan (1 # 10)%Q [ 2 # 10; 7 # 10 ]%Q). reflexivity.
  - unfold run.
    erewrite predict_growth_stage_caught;
      [| reflexivity
       | erewrite classify_image_scored by reflexivity; reflexivity].
    reflexivity.
Qed.

(** C6 as the code has it. Whenever the body of the [try] comes to its
    [return], the network answered at least four scores and the breakdown
    is the page's four rows, one per stage in the order of the class
    indices 0, 1, 2, 3, row [k] showing score [k] as a percentage, the row
    of the first maximum drawn as the prediction.  The scores are shown as
    they came: the four values sum to 1 within a tolerance exactly when the
    first four scores of the network do. *)
Theorem C6_breakdown_of_a_successful_classification :
  forall F I g path tr text confidence_html care_html tr',
    App.classify_image F I g path tr
    = (Val (text, confidence_html, care_html), tr') ->
    exists img m c0 c1 c2 c3 more rest i v,
      pil_open I path = inr img
      /\ App.model g = Some m
      /\ m (tensor_of I img) = inr ((c0 :: c1 :: c2 :: c3 :: more) :: rest)%list
      /\ is_first_max (c0 :: c1 :: c2 :: c3 :: more) i v
      /\ confidence_html
         = shown_breakdown F
             [ ("Early_Vegetative 🌿", (c0 * 100)%Q, Nat.eqb 0 i);
               ("Flowering_Initiation 🌼", (c1 * 100)%Q, Nat.eqb 1 i);
               ("Fruiting_and_Ripening 🍅", (c2 * 100)%Q, Nat.eqb 2 i);
               ("Germination_and_Seedling 🌱", (c3 * 100)%Q, Nat.eqb 3 i) ]
      /\ (forall eps : Q,
             (Qabs ((c0 * 100 + c1 * 100 + c2 * 100 + c3 * 100) / 100 - 1) <= eps
              <-> Qabs (c0 + c1 + c2 + c3 - 1) <= eps)%Q)
      /\ (App.model_loaded g = true ->
          App.predict_growth_stage F I g (Some path) tr
          = (Val (text, confidence_html, care_html), tr')).
Proof.
  intros F I g path tr text confidence_html care_html tr' Hrun.
  destruct (classify_image_returned F I g path tr _ tr' Hrun)
    as (img & m & prediction & Hopen & Hm & Hans & Hpresent).
  destruct (present_returned F prediction _ _ tr' Hpresent)
    as (c0 & c1 & c2 & c3 & more & rest & i & v & label & care
        & -> & Hmax & _ & _ & _ & Ht).
  injection Ht as _ -> _.
  exists img, m, c0, c1, c2, c3, more, rest, i, v.
  repeat (split; [first [reflexivity | assumption] |]).
  split.
  - intros eps.
    assert (Heq : ((c0 * 100 + c1 * 100 + c2 * 100 + c3 * 100) / 100 - 1
                   == c0 + c1 + c2 + c3 - 1)%Q) by field.
    apply Qabs_wd in Heq. rewrite Heq. reflexivity.
  - intros Hg. apply predict_growth_stage_passes; assumption.
Qed.

Lemma C6_breakdown_of_a_successful_classification_witness :
  exists img m c0 c1 c2 c3 more rest i v,
    pil_open Fixtures.I0 "leaf.png" = inr img
    /\ App.model (Fixtures.loaded (Fixtures.constant_model Fixtures.fruiting))
       = Some m
    /\ m (tensor_of Fixtures.I0 img)
       = inr ((c0 :: c1 :: c2 :: c3 :: more) :: rest)%list
    /\ is_first_max (c0 :: c1 :: c2 :: c3 :: more) i v
    /\ shown_breakdown Fixtures.F0
         [ ("Early_Vegetative 🌿", ((1 # 10) * 100)%Q, false);
           ("Flowering_Initiation 🌼", ((2 # 10) * 100)%Q, false);
           ("Fruiting_and_Ripening 🍅", ((6 # 10) * 100)%Q, true);
           ("Germination_and_Seedling 🌱", ((1 # 10) * 100)%Q, false) ]
       = shown_breakdown Fixtures.F0
           [ ("Early_Vegetative 🌿", (c0 * 100)%Q, Nat.eqb 0 i);
             ("Flowering_Initiation 🌼", (c1 * 100)%Q, Nat.eqb 1 i);
             ("Fruiting_and_Ripening 🍅", (c2 * 100)%Q, Nat.eqb 2 i);
             ("Germination_and_Seedling 🌱", (c3 * 100)%Q, Nat.eqb 3 i) ]
    /\ (forall eps : Q,
           (Qabs ((c0 * 100 + c1 * 100 + c2 * 100 + c3 * 100) / 100 - 1) <= eps
            <-> Qabs (c0 + c1 + c2 + c3 - 1) <= eps)%Q)
    /\ (App.model_loaded (Fixtures.loaded (Fixtures.constant_model Fixtures.fruiting))
        = true ->
        App.predict_growth_stage Fixtures.F0 Fixtures.I0
          (Fixtures.loaded (Fixtures.constant_model Fixtures.fruiting))
          (Some "leaf.png") []
        = (Val ("🎯 **Predicted Stage:** Fruiting_and_Ripening 🍅" ++ nl
                ++ "📊 **Confidence:** 60%",
                shown_breakdown Fixtures.F0
                  [ ("Early_Vegetative 🌿", ((1 # 10) * 100)%Q, false);
                    ("Flowering_Initiation 🌼", ((2 # 10) * 100)%Q, false);
                    ("Fruiting_and_Ripening 🍅", ((6 # 10) * 100)%Q, true);
                    ("Germination_and_Seedling 🌱", ((1 # 10) * 100)%Q, false) ],
                shown_care (App.title (care_entry 2)) (App.description (care_entry 2))
                  (App.do (care_entry 2)) (App.dont (care_entry 2))),
           [LoadImg "leaf.png"; Predict (tensor_of Fixtures.I0 Fixtures.two_pixels)])).
Proof.
  apply (C6_breakdown_of_a_successful_classification Fixtures.F0 Fixtures.I0
           (Fixtures.loaded (Fixtures.constant_model Fixtures.fruiting))
           "leaf.png" []).
  erewrite classify_image_scored by reflexivity. reflexivity.
Defined.

(** C6 as stated fails: the scores 1/2, 1/2, 1/2, 1/2 are classified
    successfully, the breakdown shows four rows of 50 percent, and the four
    values sum to 2. *)
Lemma C6_breakdown_need_not_sum_to_one :
  (exists care_html,
      App.predict_growth_stage Fixtures.F0 Fixtures.I0
        (Fixtures.loaded (Fixtures.constant_model [ 1 # 2; 1 # 2; 1 # 2; 1 # 2 ]%Q))
        (Some "leaf.png") []
      = (Val ("🎯 **Predicted Stage:** Early_Vegetative 🌿" ++ nl
              ++ "📊 **Confidence:** 50%",
              shown_breakdown Fixtures.F0
                [ ("Early_Vegetative 🌿", ((1 # 2) * 100)%Q, true);
                  ("Flowering_Initiation 🌼", ((1 # 2) * 100)%Q, false);
                  ("Fruiting_and_Ripening 🍅", ((1 # 2) * 100)%Q, false);
                  ("Germination_and_Seedling 🌱", ((1 # 2) * 100)%Q, false) ],
              care_html),
         [LoadImg "leaf.png"; Predict (tensor_of Fixtures.I0 Fixtures.two_pixels)]))
  /\ (((1 # 2) * 100 + (1 # 2) * 100 + (1 # 2) * 100 + (1 # 2) * 100) / 100 == 2)%Q
  /\ ~ (Qabs (((1 # 2) * 100 + (1 # 2) * 100 + (1 # 2) * 100 + (1 # 2) * 100) / 100
              - 1) <= 1 # 10000)%Q.
Proof.
  split; [| split].
  - eexists.
    erewrite predict_growth_stage_passes;
      [| reflexivity
       | erewrite classify_image_scored by reflexivity; reflexivity].
    reflexivity.
  - reflexivity.
  - vm_compute. intros H. apply H. reflexivity.
Qed.

(** X11. In a successful breakdown of at least four scores, the row drawn
    as the prediction (green bar, bold label, green border) is the row of
    the first maximum and no other: the page shows the four rows with
    exactly row [i] highlighted, so with tied scores only the row of the
    lowest tied index is. *)
Theorem X11_only_the_first_maximum_is_highlighted :
  forall F I g m path img c0 c1 c2 c3 more rest i v tr,
    App.model_loaded g = true ->
    App.model g = Some m ->
    pil_open I path = inr img ->
    m (tensor_of I img) = inr ((c0 :: c1 :: c2 :: c3 :: more) :: rest)%list ->
    is_first_max (c0 :: c1 :: c2 :: c3 :: more) i v ->
    (i < 4)%nat ->
    exists text care_html,
      App.predict_growth_stage F I g (Some path) tr
      = (Val (text,
              shown_breakdown F
                [ ("Early_Vegetative 🌿", (c0 * 100)%Q, Nat.eqb 0 i);
                  ("Flowering_Initiation 🌼", (c1 * 100)%Q, Nat.eqb 1 i);
                  ("Fruiting_and_Ripening 🍅", (c2 * 100)%Q, Nat.eqb 2 i);
                  ("Germination_and_Seedling 🌱", (c3 * 100)%Q, Nat.eqb 3 i) ],
              care_html),
         (tr ++ [LoadImg path; Predict (tensor_of I img)])%list).
Proof.
  intros F I g m path img c0 c1 c2 c3 more rest i v tr Hg Hm Hopen Hscores Hmax Hi.
  destruct (catalog_total i Hi) as (label & care & _ & Hlabel & Hcare & _).
  destruct (present_first_max F (c0 :: c1 :: c2 :: c3 :: more) rest i v label care
              (tr ++ [LoadImg path; Predict (tensor_of I img)])%list Hmax)
    as (rows & Hrun & Hrows); [simpl; lia | assumption | assumption |].
  exists (App.result_text_of F label v), (App.care_markup care).
  rewrite <- (confidence_markup_shown F c0 c1 c2 c3 more i rows Hrows).
  apply predict_growth_stage_passes; [assumption |].
  erewrite classify_image_scored by eassumption. exact Hrun.
Qed.

Lemma X11_only_the_first_maximum_is_highlighted_witness :
  exists text care_html,
    App.predict_growth_stage Fixtures.F0 Fixtures.I0
      (Fixtures.loaded (Fixtures.constant_model Fixtures.tied))
      (Some "leaf.png") []
    = (Val (text,
            shown_breakdown Fixtures.F0
              [ ("Early_Vegetative 🌿", ((1 # 10) * 100)%Q, false);
                ("Flowering_Initiation 🌼", ((4 # 10) * 100)%Q, true);
                ("Fruiting_and_Ripening 🍅", ((4 # 10) * 100)%Q, false);
                ("Germination_and_Seedling 🌱", ((1 # 10) * 100)%Q, false) ],
            care_html),
       [LoadImg "leaf.png"; Predict (tensor_of Fixtures.I0 Fixtures.two_pixels)]).
Proof.
  apply (X11_only_the_first_maximum_is_highlighted Fixtures.F0 Fixtures.I0
           (Fixtures.loaded (Fixtures.constant_model Fixtures.tied))
           (Fixtures.constant_model Fixtures.tied)
           "leaf.png" Fixtures.two_pixels
           (1 # 10)%Q (4 # 10)%Q (4 # 10)%Q (1 # 10)%Q [] [] 1%nat (4 # 10)%Q []
           eq_refl eq_refl eq_refl eq_refl).
  - apply (is_first_max_scan (1 # 10)%Q [ 4 # 10; 4 # 10; 1 # 10 ]%Q). reflexivity.
  - lia.
Defined.

(* ===================================================================== *)
(** ** The dataset cleanup                                                *)
(* ===================================================================== *)

Lemma dir_induction (P : Cleanup.dir -> Prop) :
  (forall files subdirs,
      Forall (fun entry => P (snd entry)) subdirs ->
      P (Cleanup.Dir files subdirs)) ->
  forall d, P d.
Proof.
  intros Hdir. fix IH 1. intros [files subdirs]. apply Hdir.
  induction subdirs as [| [name sub] subdirs IHsubdirs]; constructor.
  - apply IH.
  - exact IHsubdirs.
Qed.

Lemma walk_unfold F verify pr rm root files subdirs p :
  Cleanup.walk F verify pr rm root (Cleanup.Dir files subdirs) p
  = match Cleanup.scan_files F verify pr rm root files p with
    | (files', p1, Some e) => (Cleanup.Dir files' subdirs, p1, Some e)
    | (files', p1, None) =>
        let '(subdirs', p2, raised) := walk_each F verify pr rm root subdirs p1 in
        (Cleanup.Dir files' subdirs', p2, raised)
    end.
Proof. reflexivity. Qed.

Lemma listing_unfold root files subdirs :
  Cleanup.listing root (Cleanup.Dir files subdirs)
  = (map (fun fd => (root, fst fd, snd fd)) files
     ++ listing_each root subdirs)%list.
Proof. reflexivity. Qed.

Lemma skeleton_unfold root files subdirs :
  Cleanup.skeleton root (Cleanup.Dir files subdirs)
  = (root :: skeleton_each root subdirs)%list.
Proof. reflexivity. Qed.

(** The loop over the files of a directory is the walk told over their
    listing. *)
Lemma scan_files_runs F verify pr rm root :
  forall files p,
    run_over F verify pr rm (map (fun fd => (root, fst fd, snd fd)) files) p
    = let '(files', p', raised) :=
        Cleanup.scan_files F verify pr rm root files p in
      (map (fun fd => (root, fst fd, snd fd)) files', p', raised).
Proof.
  induction files as [| [file data] rest IH]; intros p; [reflexivity |].
  cbn [map run_over Cleanup.scan_files fst snd].
  unfold survives, Cleanup.is_removed, Cleanup.has_valid_extension,
    handler_exception, printed_before_raise, removal_lines.
  cbn [fst snd].
  unfold Cleanup.has_valid_extension.
  destruct (Cleanup.endswith_any (Cleanup.lower file) Cleanup.valid_extensions);
    cbn [andb negb].
  - destruct (verify (Cleanup.path_join root file) data) as [e |];
      cbn [andb negb].
    + destruct (pr _) as [print_error |]; [rewrite app_nil_r; reflexivity |].
      destruct (rm _) as [remove_error |]; [reflexivity |].
      rewrite IH. reflexivity.
    + rewrite IH.
      destruct (Cleanup.scan_files F verify pr rm root rest _) as [[rest' p'] r].
      reflexivity.
  - rewrite IH.
    destruct (Cleanup.scan_files F verify pr rm root rest _) as [[rest' p'] r].
    reflexivity.
Qed.

Lemma run_over_app F verify pr rm :
  forall l1 l2 p,
    run_over F verify pr rm (l1 ++ l2)%list p
    = match run_over F verify pr rm l1 p with
      | (l1', p1, Some e) => ((l1' ++ l2)%list, p1, Some e)
      | (l1', p1, None) =>
          let '(l2', p2, raised) := run_over F verify pr rm l2 p1 in
          ((l1' ++ l2')%list, p2, raised)
      end.
Proof.
  induction l1 as [| entry l1 IH]; intros l2 p.
  - simpl. destruct (run_over F verify pr rm l2 p) as [[l2' p2] r]. reflexivity.
  - cbn [app run_over].
    destruct (survives verify entry).
    + rewrite IH.
      destruct (run_over F verify pr rm l1 _) as [[l1' p1] [e |]];
        [reflexivity |].
      destruct (run_over F verify pr rm l2 p1) as [[l2' p2] r]. reflexivity.
    + destruct (handler_exception F verify pr rm entry); [reflexivity |].
      apply IH.
Qed.

(** The walk of a tree is the walk told over its listing, and it keeps
    every directory. *)
Lemma walk_runs F verify pr rm :
  forall d root p,
    run_over F verify pr rm (Cleanup.listing root d) p
    = (let '(d', p', raised) := Cleanup.walk F verify pr rm root d p in
       (Cleanup.listing root d', p', raised))
    /\ Cleanup.skeleton root (fst (fst (Cleanup.walk F verify pr rm root d p)))
       = Cleanup.skeleton root d.
Proof.
  induction d as [files subdirs IHsub] using dir_induction. intros root p.
  rewrite walk_unfold, listing_unfold, run_over_app, scan_files_runs.
  destruct (Cleanup.scan_files F verify pr rm root files p)
    as [[files' p1] [e |]].
  { rewrite listing_unfold. split; reflexivity. }
  assert (Heach : forall q,
             run_over F verify pr rm (listing_each root subdirs) q
             = (let '(subdirs', q', raised) :=
                  walk_each F verify pr rm root subdirs q in
                (listing_each root subdirs', q', raised))
             /\ skeleton_each root
                  (fst (fst (walk_each F verify pr rm root subdirs q)))
                = skeleton_each root subdirs).
  { induction IHsub as [| [name sub] subdirs Hsub _ IH]; intros q.
    - split; reflexivity.
    - cbn [walk_each listing_each skeleton_each]. cbn [snd] in Hsub.
      fold (walk_each F verify pr rm root).
      fold (listing_each root). fold (skeleton_each root).
      rewrite run_over_app.
      destruct (Hsub (Cleanup.path_join root name) q) as (Hrun & Hskel).
      rewrite Hrun.
      destruct (Cleanup.walk F verify pr rm (Cleanup.path_join root name) sub q)
        as [[sub' q'] [e |]]; cbn [fst] in Hskel.
      + cbn [fst listing_each skeleton_each].
        fold (listing_each root). fold (skeleton_each root).
        rewrite Hskel. split; reflexivity.
      + destruct (IH q') as (IHrun & IHskel). rewrite IHrun.
        destruct (walk_each F verify pr rm root subdirs q')
          as [[subdirs' q''] r].
        cbn [fst listing_each skeleton_each] in *.
        fold (listing_each root). fold (skeleton_each root).
        rewrite Hskel, IHskel. split; reflexivity. }
  destruct (Heach p1) as (Hrun & Hskel). rewrite Hrun.
  destruct (walk_each F verify pr rm root subdirs p1) as [[subdirs' p2] r].
  cbn [fst] in *. rewrite listing_unfold, skeleton_unfold, Hskel.
  split; reflexivity.
Qed.

Lemma survivor_prints_nothing F verify entry :
  survives verify entry = true -> removal_lines F verify entry = []%list.
Proof.
  unfold survives, Cleanup.is_removed, removal_lines.
  destruct (Cleanup.has_valid_extension (snd (fst entry))); [| reflexivity].
  destruct (verify _ (snd entry)); [discriminate | reflexivity].
Qed.

(** What a run over a listing leaves, counts and prints. *)
Lemma run_over_outcome F verify pr rm :
  forall l p l' p' raised,
    run_over F verify pr rm l p = (l', p', raised) ->
    exists before rest,
      l = (before ++ rest)%list
      /\ l' = (filter (survives verify) before ++ rest)%list
      /\ Cleanup.corrupted_count p'
         = (Cleanup.corrupted_count p
            + List.length (removed_of verify before))%nat
      /\ match raised with
         | None =>
             rest = []%list
             /\ Cleanup.total_files p'
                = (Cleanup.total_files p + List.length l)%nat
             /\ Cleanup.printed p'
                = (Cleanup.printed p
                   ++ flat_map (removal_lines F verify) before)%list
         | Some e =>
             exists entry after,
               rest = (entry :: after)%list
               /\ survives verify entry = false
               /\ handler_exception F verify pr rm entry = Some e
               /\ Cleanup.printed p'
                  = (Cleanup.printed p
                     ++ flat_map (removal_lines F verify) before
                     ++ printed_before_raise F verify pr entry)%list
         end.
Proof.
  induction l as [| entry l IH]; intros p l' p' raised Hrun.
  - injection Hrun as <- <- <-. exists []%list, []%list.
    unfold removed_of. simpl. rewrite !Nat.add_0_r, app_nil_r.
    repeat split.
  - cbn [run_over] in Hrun.
    destruct (survives verify entry) eqn:Hs.
    + destruct (run_over F verify pr rm l _) as [[rest' q'] r] eqn:Hrest.
      injection Hrun as <- <- <-.
      destruct (IH _ _ _ _ Hrest) as (before & rest & -> & -> & Hc & Hr).
      exists (entry :: before)%list, rest.
      unfold removed_of in *. cbn [filter flat_map app]. rewrite Hs.
      cbn [negb app]. rewrite (survivor_prints_nothing F verify entry Hs).
      cbn [app Cleanup.corrupted_count Cleanup.total_files Cleanup.printed] in *.
      split; [reflexivity |]. split; [reflexivity |]. split; [exact Hc |].
      destruct r as [e |].
      * exact Hr.
      * destruct Hr as (-> & Ht & Hp). rewrite app_nil_r in *.
        cbn [List.length]. repeat split; [lia | exact Hp].
    + destruct (handler_exception F verify pr rm entry) as [e |] eqn:He.
      * injection Hrun as <- <- <-. exists []%list, (entry :: l)%list.
        unfold removed_of.
        cbn [filter flat_map app List.length Cleanup.corrupted_count
             Cleanup.printed].
        rewrite Nat.add_0_r.
        split; [reflexivity |]. split; [reflexivity |]. split; [reflexivity |].
        exists entry, l. repeat split; assumption.
      * destruct (IH _ _ _ _ Hrun) as (before & rest & -> & -> & Hc & Hr).
        exists (entry :: before)%list, rest.
        unfold removed_of in *. cbn [filter flat_map app]. rewrite Hs.
        cbn [negb app List.length
             Cleanup.corrupted_count Cleanup.total_files Cleanup.printed] in *.
        split; [reflexivity |]. split; [reflexivity |]. split; [lia |].
        destruct raised as [e |].
        -- destruct Hr as (x & after & -> & Hx & Hxe & Hp).
           exists x, after. repeat split; try assumption.
           rewrite Hp, <- !app_assoc. reflexivity.
        -- destruct Hr as (-> & Ht & Hp). rewrite app_nil_r in *.
           cbn [List.length]. repeat split; [lia |].
           rewrite Hp, <- app_assoc. reflexivity.
Qed.

(** The handler raises only when the print or the removal does. *)
Lemma handler_exception_from F verify pr rm entry e :
  handler_exception F verify pr rm entry = Some e ->
  (exists line, pr line = Some e) \/ (exists file_path, rm file_path = Some e).
Proof.
  unfold handler_exception.
  destruct (removal_lines F verify entry) as [| line lines]; [discriminate |].
  destruct (pr line) as [print_error |] eqn:Hprint.
  - intros H. injection H as <-. left. exists line. assumption.
  - intros H. right. eexists. exact H.
Qed.

Lemma cleanup_unfold F verify pr rm root_dir d :
  Cleanup.cleanup_corrupt_images F verify pr rm root_dir (Some d)
  = let '(d', p, raised) :=
      Cleanup.walk F verify pr rm root_dir d
        {| Cleanup.total_files := 0; Cleanup.corrupted_count := 0;
           Cleanup.printed := [] |} in
    match raised with
    | Some e => (Some d', Cleanup.printed p, Some e)
    | None =>
        (Some d',
         (Cleanup.printed p
          ++ [ (nl ++ "Cleanup complete. Scanned "
                ++ str_of_nat (Cleanup.total_files p) ++ " files.")%string;
               if (0 <? Cleanup.corrupted_count p)%nat
               then ("Removed " ++ str_of_nat (Cleanup.corrupted_count p)
                     ++ " corrupted files.")%string
               else "No corrupted files were found." ])%list,
         None)
    end.
Proof.
  unfold Cleanup.cleanup_corrupt_images.
  destruct (Cleanup.walk F verify pr rm root_dir d _) as [[d' p] [e |]];
    [reflexivity |].
  destruct (0 <? Cleanup.corrupted_count p)%nat;
    rewrite <- app_assoc; reflexivity.
Qed.

(** *** Names with an image extension *)

Lemma substring_whole s : substring 0 (String.length s) s = s.
Proof. induction s as [| c s IH]; simpl; [reflexivity | now rewrite IH]. Qed.

Lemma substring_after_prefix pre suf :
  substring (String.length pre) (String.length suf) (pre ++ suf) = suf.
Proof.
  induction pre as [| c pre IH]; simpl; [apply substring_whole | exact IH].
Qed.

Lemma substring_split s :
  forall n,
    (n <= String.length s)%nat ->
    s = substring 0 n s ++ substring n (String.length s - n) s.
Proof.
  induction s as [| c s IH]; intros [| n] Hn; simpl in *.
  - reflexivity.
  - lia.
  - now rewrite substring_whole.
  - rewrite <- IH by lia. reflexivity.
Qed.

Lemma length_append_string s t :
  String.length (s ++ t) = (String.length s + String.length t)%nat.
Proof. induction s as [| c s IH]; simpl; [reflexivity | now rewrite IH]. Qed.

(** [endswith] decides "is a suffix of". *)
Lemma endswith_suffix s suffix :
  Cleanup.endswith s suffix = true <-> exists stem, s = stem ++ suffix.
Proof.
  unfold Cleanup.endswith. rewrite andb_true_iff, Nat.leb_le, String.eqb_eq.
  split.
  - intros (Hlen & Hsub).
    exists (substring 0 (String.length s - String.length suffix) s).
    pose proof (substring_split s (String.length s - String.length suffix))
      as Hsplit.
    replace (String.length s - (String.length s - String.length suffix))%nat
      with (String.length suffix) in Hsplit by lia.
    rewrite Hsub in Hsplit. apply Hsplit. lia.
  - intros (stem & ->). rewrite length_append_string. split; [lia |].
    replace (String.length stem + String.length suffix - String.length suffix)%nat
      with (String.length stem) by lia.
    apply substring_after_prefix.
Qed.

(** Lower-casing a character gives a character it reads as. *)
Lemma lower_ascii_reads_as c : reads_as c (Cleanup.lower_ascii c).
Proof.
  unfold reads_as, Cleanup.lower_ascii.
  destruct ((65 <=? nat_of_ascii c)%nat && (nat_of_ascii c <=? 90)%nat) eqn:Hup;
    [| left; reflexivity].
  apply andb_true_iff in Hup. destruct Hup as (Hlo & Hhi).
  apply Nat.leb_le in Hlo. apply Nat.leb_le in Hhi.
  right. rewrite nat_ascii_embedding by lia. lia.
Qed.

Lemma reads_as_lower c l :
  reads_as c l -> Cleanup.lower_ascii l = l -> Cleanup.lower_ascii c = l.
Proof.
  intros [-> | (Hlo & Hhi & Hc)] Hl; [exact Hl |].
  unfold Cleanup.lower_ascii.
  replace ((65 <=? nat_of_ascii c)%nat && (nat_of_ascii c <=? 90)%nat)
    with true.
  - rewrite Hc. apply ascii_nat_embedding.
  - symmetry. apply andb_true_iff. split; apply Nat.leb_le; lia.
Qed.

Lemma lower_spells s : spells s (Cleanup.lower s).
Proof.
  induction s as [| c s IH]; simpl; [exact I |].
  split; [apply lower_ascii_reads_as | exact IH].
Qed.

Lemma spells_lower :
  forall s word,
    spells s word -> Cleanup.lower word = word -> Cleanup.lower s = word.
Proof.
  induction s as [| c s IH]; intros [| l word] Hs Hword; simpl in *;
    try contradiction; [reflexivity |].
  destruct Hs as (Hc & Hs). injection Hword as Hl Hword.
  rewrite (reads_as_lower c l Hc Hl), (IH word Hs Hword). reflexivity.
Qed.

Lemma lower_append s t :
  Cleanup.lower (s ++ t) = Cleanup.lower s ++ Cleanup.lower t.
Proof. induction s as [| c s IH]; simpl; [reflexivity | now rewrite IH]. Qed.

Lemma lower_splits :
  forall a file b,
    Cleanup.lower file = a ++ b ->
    exists stem tail, file = stem ++ tail /\ Cleanup.lower tail = b.
Proof.
  induction a as [| c a IH]; intros file b H.
  - exists "", file. split; [reflexivity | exact H].
  - destruct file as [| c0 file]; [discriminate |].
    simpl in H. injection H as _ H.
    destruct (IH file b H) as (stem & tail & -> & Htail).
    exists (String c0 stem), tail. split; [reflexivity | exact Htail].
Qed.

(** The test of line 19 holds exactly for the names that end, in any
    case, with .jpg, .jpeg or .png. *)
Lemma has_valid_extension_iff file :
  Cleanup.has_valid_extension file = true <-> ends_with_image_extension file.
Proof.
  unfold Cleanup.has_valid_extension, Cleanup.endswith_any,
    ends_with_image_extension.
  rewrite existsb_exists. split.
  - intros (ext & Hin & Hends). apply endswith_suffix in Hends.
    destruct Hends as (a & Ha).
    destruct (lower_splits a file ext Ha) as (stem & tail & -> & Htail).
    exists stem, tail. split; [reflexivity |].
    pose proof (lower_spells tail) as Hspells. rewrite Htail in Hspells.
    unfold Cleanup.valid_extensions in Hin. simpl in Hin.
    destruct Hin as [<- | [<- | [<- | []]]]; auto.
  - intros (stem & tail & -> & Hspells).
    assert (Hext : exists ext,
               In ext Cleanup.valid_extensions /\ Cleanup.lower tail = ext).
    { destruct Hspells as [H | [H | H]];
        eexists; (split; [| apply (spells_lower _ _ H); reflexivity]);
        simpl; auto. }
    destruct Hext as (ext & Hin & Htail).
    exists ext. split; [assumption |].
    apply endswith_suffix. exists (Cleanup.lower stem).
    rewrite lower_append, Htail. reflexivity.
Qed.

Lemma survives_iff verify dirpath file data :
  survives verify (dirpath, file, data) = false
  <-> ends_with_image_extension file
      /\ exists e, verify (Cleanup.path_join dirpath file) data = Some e.
Proof.
  unfold survives, Cleanup.is_removed. cbn [fst snd].
  rewrite negb_false_iff, andb_true_iff, has_valid_extension_iff.
  destruct (verify (Cleanup.path_join dirpath file) data) as [e |].
  - split; intros (Hext & _); (split; [assumption |]); eauto.
  - split; [intros (_ & Hf); discriminate | intros (_ & (e & He)); discriminate].
Qed.

(** *** What the cleanup removes *)

Lemma path_join_plain dirpath file :
  dirpath <> "" ->
  (forall x, dirpath <> x ++ "/") ->
  (forall x, file <> "/" ++ x) ->
  Cleanup.path_join dirpath file = dirpath ++ "/" ++ file.
Proof.
  intros Hne Hdir Hfile. unfold Cleanup.path_join, Cleanup.startswith.
  replace (prefix "/" file) with false.
  2:{ destruct file as [| c file]; [reflexivity |]. cbn [prefix].
      destruct (ascii_dec "/"%char c) as [<- | Hc]; [| reflexivity].
      exfalso. apply (Hfile file). reflexivity. }
  replace (String.eqb dirpath "") with false
    by (symmetry; apply String.eqb_neq; assumption).
  replace (Cleanup.endswith dirpath "/") with false; [reflexivity |].
  symmetry. apply not_true_is_false. intros Hends.
  apply endswith_suffix in Hends. destruct Hends as (x & Hx).
  apply (Hdir x). assumption.
Qed.

Lemma cleanup_run F verify pr rm root_dir d :
  exists d' p raised out,
    Cleanup.walk F verify pr rm root_dir d
      {| Cleanup.total_files := 0; Cleanup.corrupted_count := 0;
         Cleanup.printed := [] |}
    = (d', p, raised)
    /\ Cleanup.cleanup_corrupt_images F verify pr rm root_dir (Some d)
       = (Some d', out, raised)
    /\ out
       = match raised with
         | Some _ => Cleanup.printed p
         | None =>
             (Cleanup.printed p
              ++ [ (nl ++ "Cleanup complete. Scanned "
                    ++ str_of_nat (Cleanup.total_files p) ++ " files.")%string;
                   if (0 <? Cleanup.corrupted_count p)%nat
                   then ("Removed " ++ str_of_nat (Cleanup.corrupted_count p)
                         ++ " corrupted files.")%string
                   else "No corrupted files were found." ])%list
         end.
Proof.
  rewrite cleanup_unfold.
  destruct (Cleanup.walk F verify pr rm root_dir d _) as [[d' p] [e |]];
    do 4 eexists; repeat split.
Qed.

(** C9 as the code has it. The listing of the tree splits into the files
    the walk passed and the files from where an exception stopped it (none
    when it came to its end).  Of the files passed, exactly those are gone
    whose name ends, in any case, with .jpg, .jpeg or .png and whose
    opening or verification raised; every other file, and every file from
    where the walk stopped, is still there with its contents and in
    place; no directory changed.  The walk stops only at a file it was
    about to remove, when printing its line or removing it raised; it
    comes to its end when neither ever raises. *)
Theorem C9_cleanup_removes_only_corrupt_images :
  forall F verify print_removal os_remove root_dir d,
    exists d' out raised passed rest,
      Cleanup.cleanup_corrupt_images F verify print_removal os_remove
        root_dir (Some d)
      = (Some d', out, raised)
      /\ Cleanup.skeleton root_dir d' = Cleanup.skeleton root_dir d
      /\ Cleanup.listing root_dir d = (passed ++ rest)%list
      /\ Cleanup.listing root_dir d'
         = (filter (survives verify) passed ++ rest)%list
      /\ (forall dirpath file data,
             survives verify (dirpath, file, data) = false
             <-> ends_with_image_extension file
                 /\ exists e,
                      verify (Cleanup.path_join dirpath file) data = Some e)
      /\ (forall dirpath file,
             dirpath <> "" -> (forall x, dirpath <> x ++ "/") ->
             (forall x, file <> "/" ++ x) ->
             Cleanup.path_join dirpath file = dirpath ++ "/" ++ file)
      /\ (forall dirpath file data,
             In (dirpath, file, data) (Cleanup.listing root_dir d) ->
             ~ In (dirpath, file, data) (Cleanup.listing root_dir d') ->
             ends_with_image_extension file
             /\ exists e,
                  verify (Cleanup.path_join dirpath file) data = Some e)
      /\ (forall entry,
             In entry (Cleanup.listing root_dir d') ->
             In entry (Cleanup.listing root_dir d))
      /\ (raised = None ->
          rest = []%list
          /\ forall dirpath file data,
               In (dirpath, file, data) (Cleanup.listing root_dir d) ->
               (~ In (dirpath, file, data) (Cleanup.listing root_dir d')
                <-> ends_with_image_extension file
                    /\ exists e,
                         verify (Cleanup.path_join dirpath file) data = Some e))
      /\ (forall e,
             raised = Some e ->
             exists entry after,
               rest = (entry :: after)%list
               /\ survives verify entry = false
               /\ ((exists line, print_removal line = Some e)
                   \/ (exists file_path, os_remove file_path = Some e)))
      /\ ((forall line, print_removal line = None) ->
          (forall file_path, os_remove file_path = None) ->
          raised = None)
      /\ fst (fst (Cleanup.cleanup_corrupt_images F verify print_removal
                     os_remove root_dir None))
         = None.
Proof.
  intros F verify pr rm root_dir d.
  destruct (cleanup_run F verify pr rm root_dir d)
    as (d' & p & raised & out & Hwalk & Hrun & _).
  destruct (walk_runs F verify pr rm d root_dir
              {| Cleanup.total_files := 0; Cleanup.corrupted_count := 0;
                 Cleanup.printed := [] |}) as (Hflat & Hskel).
  rewrite Hwalk in Hflat, Hskel. cbn [fst] in Hskel.
  destruct (run_over_outcome F verify pr rm _ _ _ _ _ Hflat)
    as (passed & rest & HL & HL' & _ & Hraised).
  assert (Hstop : forall e, raised = Some e ->
            exists entry after,
              rest = (entry :: after)%list
              /\ survives verify entry = false
              /\ ((exists line, pr line = Some e)
                  \/ (exists file_path, rm file_path = Some e))).
  { intros e ->. destruct Hraised as (entry & after & -> & Hs & He & _).
    exists entry, after. split; [reflexivity |]. split; [assumption |].
    eapply handler_exception_from. eassumption. }
  assert (Honly : forall entry,
            In entry (Cleanup.listing root_dir d) ->
            ~ In entry (Cleanup.listing root_dir d') ->
            survives verify entry = false).
  { intros entry Hin Hout. rewrite HL in Hin. rewrite HL' in Hout.
    apply in_app_or in Hin. destruct Hin as [Hin | Hin].
    - destruct (survives verify entry) eqn:Hs; [| reflexivity].
      exfalso. apply Hout. apply in_or_app. left.
      apply filter_In. split; assumption.
    - exfalso. apply Hout. apply in_or_app. right. assumption. }
  exists d', out, raised, passed, rest.
  split; [exact Hrun |]. split; [exact Hskel |]. split; [exact HL |].
  split; [exact HL' |]. split; [apply survives_iff |].
  split; [apply path_join_plain |].
  split.
  { intros dirpath file data Hin Hout. apply survives_iff.
    apply Honly; assumption. }
  split.
  { intros entry Hin. rewrite HL' in Hin. rewrite HL.
    apply in_app_or in Hin. apply in_or_app.
    destruct Hin as [Hin | Hin]; [left | right; assumption].
    apply filter_In in Hin. apply Hin. }
  split.
  { intros ->. destruct Hraised as (-> & _). split; [reflexivity |].
    intros dirpath file data Hin. rewrite <- survives_iff. split.
    - apply Honly. assumption.
    - intros Hs Hstill. rewrite HL', app_nil_r in Hstill.
      apply filter_In in Hstill. destruct Hstill as (_ & Hs'). congruence. }
  split; [exact Hstop |].
  split.
  { intros Hpr Hrm. destruct raised as [e |]; [| reflexivity].
    destruct (Hstop e eq_refl) as (_ & _ & _ & _ & [(line & H) | (fp & H)]).
    - rewrite Hpr in H. discriminate.
    - rewrite Hrm in H. discriminate. }
  reflexivity.
Qed.

(** C9 as stated fails: a corrupt image stays when the handler raises.
    On a terminal that encodes ASCII only, the line for [café.jpg] cannot
    be printed: nothing is removed, a second corrupt image is never looked
    at.  In a read-only folder the line for [cover.PNG] is printed, the
    removal is refused, and the file stays. *)
Lemma C9_corrupt_image_kept_when_handler_raises :
  (Cleanup.cleanup_corrupt_images Fixtures.F0 Fixtures.verify0
     Fixtures.ascii_stdout Fixtures.remove_ok "data" (Some Fixtures.accented)
   = (Some Fixtures.accented, []%list,
      Some (OtherException "UnicodeEncodeError"
              "'ascii' codec can't encode character: ordinal not in range(128)"))
   /\ In ("data", "b.png", Fixtures.garbage)
        (Cleanup.listing "data" Fixtures.accented)
   /\ ends_with_image_extension "b.png"
   /\ Fixtures.verify0 "data/b.png" Fixtures.garbage
      = Some (UnidentifiedImageError "cannot identify image file"))
  /\ (Cleanup.cleanup_corrupt_images Fixtures.F0 Fixtures.verify0
        Fixtures.any_stdout Fixtures.remove_denied "data" (Some Fixtures.dataset)
      = (Some Fixtures.dataset,
         [ "Removing corrupted file: data/cover.PNG - Error: cannot identify image file" ]%list,
         Some (OtherException "PermissionError" "[Errno 13] Permission denied"))
      /\ In ("data", "cover.PNG", Fixtures.garbage)
           (Cleanup.listing "data" Fixtures.dataset)
      /\ ends_with_image_extension "cover.PNG"
      /\ Fixtures.verify0 "data/cover.PNG" Fixtures.garbage
         = Some (UnidentifiedImageError "cannot identify image file")).
Proof.
  split; (split; [vm_compute; reflexivity |]);
    (split; [simpl; auto |]); (split; [| reflexivity]).
  - exists "b", ".png". split; [reflexivity |].
    right; right. simpl. repeat split; left; reflexivity.
  - exists "cover", ".PNG". split; [reflexivity |].
    right; right. simpl. unfold reads_as.
    repeat split;
      first [left; reflexivity
            | right; repeat split; apply Nat.leb_le || idtac; reflexivity].
Qed.

(** The cleanup on a small dataset folder: two corrupt images and one
    mis-cased one go, the text files and the backup stay. *)
Example cleanup_dataset :
  Cleanup.script Fixtures.F0 Fixtures.verify0 Fixtures.any_stdout
    Fixtures.remove_ok (Some Fixtures.dataset)
  = (Some (Cleanup.Dir
             [ ("README.md", Fixtures.garbage) ]
             [ ("Stage1", Cleanup.Dir [ ("a.jpg", Fixtures.png_ok);
                                        ("c.txt", Fixtures.garbage) ] []);
               ("Stage2", Cleanup.Dir []
                            [ ("raw", Cleanup.Dir
                                        [ ("e.jpg.bak", Fixtures.garbage) ] []) ]) ]),
     [ "Starting cleanup for corrupt image files...";
       "Removing corrupted file: data/cover.PNG - Error: cannot identify image file";
       "Removing corrupted file: data/Stage1/b.JPeG - Error: cannot identify image file";
       "Removing corrupted file: data/Stage2/d.png - Error: cannot identify image file";
       (nl ++ "Cleanup complete. Scanned 7 files.")%string;
       "Removed 3 corrupted files." ]%list,
     None).
Proof. vm_compute. reflexivity. Qed.

(* ===================================================================== *)
(** ** Further properties of the cleanup                                  *)
(* ===================================================================== *)

Lemma removal_lines_count F verify l :
  List.length (flat_map (removal_lines F verify) l)
  = List.length (removed_of verify l).
Proof.
  induction l as [| [[dirpath file] data] l IH]; [reflexivity |].
  unfold removed_of in *. cbn [flat_map filter].
  rewrite length_app, IH.
  unfold removal_lines, survives, Cleanup.is_removed. cbn [fst snd].
  destruct (Cleanup.has_valid_extension file); cbn [andb negb];
    [| reflexivity].
  destruct (verify (Cleanup.path_join dirpath file) data); reflexivity.
Qed.

(** X7. The report of the cleanup.  When the walk comes to its end: one
    line per removed file, in walk order, giving its path and the text of
    the exception; then the number of files scanned, which is the number
    of files in the tree; then the number of files removed, or, when none
    was, that no corrupted file was found; there are as many removal lines
    as files gone from the tree.  When the handler raises at a file: the
    lines of the files removed before it, then the line of that file if
    the print succeeded and the removal raised, and no summary.  The walk
    comes to its end whenever neither the print nor the removal raises. *)
Theorem X7_cleanup_report :
  forall F verify print_removal os_remove root_dir d,
    exists d' out raised,
      Cleanup.cleanup_corrupt_images F verify print_removal os_remove
        root_dir (Some d)
      = (Some d', out, raised)
      /\ (raised = None ->
          out
          = (flat_map (removal_lines F verify) (Cleanup.listing root_dir d)
             ++ [ (nl ++ "Cleanup complete. Scanned "
                   ++ str_of_nat (List.length (Cleanup.listing root_dir d))
                   ++ " files.")%string;
                  if (0 <? List.length
                             (removed_of verify (Cleanup.listing root_dir d)))%nat
                  then ("Removed "
                        ++ str_of_nat
                             (List.length
                                (removed_of verify (Cleanup.listing root_dir d)))
                        ++ " corrupted files.")%string
                  else "No corrupted files were found." ])%list
          /\ List.length (flat_map (removal_lines F verify)
                            (Cleanup.listing root_dir d))
             = (List.length (Cleanup.listing root_dir d)
                - List.length (Cleanup.listing root_dir d'))%nat
          /\ List.length (removed_of verify (Cleanup.listing root_dir d))
             = (List.length (Cleanup.listing root_dir d)
                - List.length (Cleanup.listing root_dir d'))%nat)
      /\ (forall e,
             raised = Some e ->
             exists passed entry after,
               Cleanup.listing root_dir d = (passed ++ entry :: after)%list
               /\ handler_exception F verify print_removal os_remove entry
                  = Some e
               /\ out
                  = (flat_map (removal_lines F verify) passed
                     ++ printed_before_raise F verify print_removal entry)%list)
      /\ ((forall line, print_removal line = None) ->
          (forall file_path, os_remove file_path = None) ->
          raised = None).
Proof.
  intros F verify pr rm root_dir d.
  destruct (cleanup_run F verify pr rm root_dir d)
    as (d' & p & raised & out & Hwalk & Hrun & Hout).
  destruct (walk_runs F verify pr rm d root_dir
              {| Cleanup.total_files := 0; Cleanup.corrupted_count := 0;
                 Cleanup.printed := [] |}) as (Hflat & _).
  rewrite Hwalk in Hflat.
  destruct (run_over_outcome F verify pr rm _ _ _ _ _ Hflat)
    as (passed & rest & HL & HL' & Hc & Hraised).
  cbn [Cleanup.total_files Cleanup.corrupted_count Cleanup.printed
       Nat.add app] in Hc, Hraised.
  exists d', out, raised.
  split; [exact Hrun |]. split; [| split].
  - intros ->. destruct Hraised as (-> & Ht & Hp). rewrite app_nil_r in *.
    subst passed.
    assert (Hcount :
      List.length (removed_of verify (Cleanup.listing root_dir d))
      = (List.length (Cleanup.listing root_dir d)
         - List.length (Cleanup.listing root_dir d'))%nat).
    { rewrite HL'. unfold removed_of.
      pose proof (filter_length (survives verify) (Cleanup.listing root_dir d)).
      lia. }
    split; [| split; [rewrite removal_lines_count |]; exact Hcount].
    rewrite Hout, Hp, Ht, Hc. reflexivity.
  - intros e ->. destruct Hraised as (entry & after & -> & _ & He & Hp).
    exists passed, entry, after.
    split; [exact HL |]. split; [exact He |]. rewrite Hout, Hp. reflexivity.
  - intros Hpr Hrm. destruct raised as [e |]; [| reflexivity].
    destruct Hraised as (entry & after & _ & _ & He & _).
    destruct (handler_exception_from F verify pr rm entry e He)
      as [(line & H) | (fp & H)].
    + rewrite Hpr in H. discriminate.
    + rewrite Hrm in H. discriminate.
Qed.

Lemma filter_all_kept {A} (f : A -> bool) (l : list A) :
  (forall x, In x l -> f x = true) -> filter f l = l.
Proof.
  induction l as [| x l IH]; intros Hall; [reflexivity |].
  simpl. rewrite (Hall x (or_introl eq_refl)). f_equal.
  apply IH. intros y Hy. apply Hall. right. assumption.
Qed.

Lemma scan_files_clean F verify pr rm root :
  forall files p,
    (forall file data,
        In (file, data) files -> survives verify (root, file, data) = true) ->
    exists p', Cleanup.scan_files F verify pr rm root files p = (files, p', None).
Proof.
  induction files as [| [file data] rest IH]; intros p Hclean.
  - eexists. reflexivity.
  - pose proof (Hclean file data (or_introl eq_refl)) as Hs.
    unfold survives, Cleanup.is_removed, Cleanup.has_valid_extension in Hs.
    cbn [fst snd] in Hs.
    cbn [Cleanup.scan_files].
    assert (Hrest : forall q,
               exists p', Cleanup.scan_files F verify pr rm root rest q
                          = (rest, p', None)).
    { intros q. apply IH. intros f dt Hin. apply Hclean. right. assumption. }
    destruct (Cleanup.endswith_any (Cleanup.lower file) Cleanup.valid_extensions).
    + destruct (verify (Cleanup.path_join root file) data); [discriminate |].
      match goal with
      | |- context [Cleanup.scan_files F verify pr rm root rest ?q] =>
          destruct (Hrest q) as (p' & ->)
      end.
      eexists. reflexivity.
    + match goal with
      | |- context [Cleanup.scan_files F verify pr rm root rest ?q] =>
          destruct (Hrest q) as (p' & ->)
      end.
      eexists. reflexivity.
Qed.

Lemma walk_clean_tree F verify pr rm :
  forall d root p,
    clean_tree verify root d ->
    exists p', Cleanup.walk F verify pr rm root d p = (d, p', None).
Proof.
  induction d as [files subdirs IHsub] using dir_induction.
  intros root p Hclean. unfold clean_tree in Hclean.
  rewrite listing_unfold in Hclean.
  rewrite walk_unfold.
  destruct (scan_files_clean F verify pr rm root files p) as (p1 & ->).
  { intros file data Hin. apply (Hclean (root, file, data)).
    apply in_or_app. left.
    apply (in_map (fun fd => (root, fst fd, snd fd)) files (file, data) Hin). }
  assert (Heach : forall q,
             exists q', walk_each F verify pr rm root subdirs q
                        = (subdirs, q', None)).
  { assert (Hsub : forall entry, In entry (listing_each root subdirs) ->
                                 survives verify entry = true).
    { intros entry Hin. apply Hclean. apply in_or_app. right. assumption. }
    clear Hclean.
    induction IHsub as [| [name sub] subdirs Hone _ IH]; intros q;
      [eexists; reflexivity |].
    cbn [walk_each]. cbn [snd] in Hone.
    cbn [listing_each] in Hsub. fold (listing_each root) in Hsub.
    fold (walk_each F verify pr rm root).
    destruct (Hone (Cleanup.path_join root name) q) as (q' & ->).
    { intros entry Hin. apply Hsub. apply in_or_app. left. assumption. }
    destruct (IH (fun entry Hin => Hsub entry (in_or_app _ _ _ (or_intror Hin))) q')
      as (q'' & ->).
    eexists. reflexivity. }
  destruct (Heach p1) as (p2 & ->). eexists. reflexivity.
Qed.

Lemma clean_tree_nothing_removed verify root d :
  clean_tree verify root d ->
  removed_of verify (Cleanup.listing root d) = []%list.
Proof.
  unfold clean_tree, removed_of.
  induction (Cleanup.listing root d) as [| entry l IH]; intros Hclean;
    [reflexivity |].
  simpl. rewrite (Hclean entry (or_introl eq_refl)). simpl.
  apply IH. intros e He. apply Hclean. right. assumption.
Qed.

Lemma cleanup_of_clean_tree F verify pr rm root_dir d :
  clean_tree verify root_dir d ->
  Cleanup.cleanup_corrupt_images F verify pr rm root_dir (Some d)
  = (Some d,
     [ (nl ++ "Cleanup complete. Scanned "
        ++ str_of_nat (List.length (Cleanup.listing root_dir d))
        ++ " files.")%string;
       "No corrupted files were found." ]%list,
     None).
Proof.
  intros Hclean.
  destruct (walk_clean_tree F verify pr rm d root_dir
              {| Cleanup.total_files := 0; Cleanup.corrupted_count := 0;
                 Cleanup.printed := [] |} Hclean) as (p & Hwalk).
  destruct (walk_runs F verify pr rm d root_dir
              {| Cleanup.total_files := 0; Cleanup.corrupted_count := 0;
                 Cleanup.printed := [] |}) as (Hflat & _).
  rewrite Hwalk in Hflat.
  destruct (run_over_outcome F verify pr rm _ _ _ _ _ Hflat)
    as (passed & rest & HL & _ & Hc & (-> & Ht & Hp)).
  rewrite app_nil_r in HL. subst passed.
  cbn [Cleanup.total_files Cleanup.corrupted_count Cleanup.printed
       Nat.add app] in Hc, Ht, Hp.
  pose proof (removal_lines_count F verify (Cleanup.listing root_dir d)) as Hlen.
  rewrite (clean_tree_nothing_removed verify root_dir d Hclean) in Hc, Hlen.
  apply length_zero_iff_nil in Hlen. rewrite Hlen in Hp.
  rewrite cleanup_unfold, Hwalk, Hp, Ht, Hc. reflexivity.
Qed.

(** X8. A dataset in which every image-named file opens and verifies is
    left exactly as it is, no exception ends the call, and the report has
    just the two summary lines: the number of files scanned and that no
    corrupted file was found. *)
Theorem X8_clean_dataset_untouched :
  forall F verify print_removal os_remove root_dir d,
    (forall dirpath file data,
        In (dirpath, file, data) (Cleanup.listing root_dir d) ->
        Cleanup.has_valid_extension file = true ->
        verify (Cleanup.path_join dirpath file) data = None) ->
    Cleanup.cleanup_corrupt_images F verify print_removal os_remove
      root_dir (Some d)
    = (Some d,
       [ (nl ++ "Cleanup complete. Scanned "
          ++ str_of_nat (List.length (Cleanup.listing root_dir d))
          ++ " files.")%string;
         "No corrupted files were found." ]%list,
       None).
Proof.
  intros F verify pr rm root_dir d Hok.
  apply cleanup_of_clean_tree.
  intros [[dirpath file] data] Hin.
  unfold survives, Cleanup.is_removed. cbn [fst snd].
  destruct (Cleanup.has_valid_extension file) eqn:Hext; [| reflexivity].
  rewrite (Hok dirpath file data Hin Hext). reflexivity.
Qed.

Lemma X8_clean_dataset_untouched_witness :
  Cleanup.cleanup_corrupt_images Fixtures.F0 Fixtures.verify0
    Fixtures.ascii_stdout Fixtures.remove_denied "data"
    (Some (Cleanup.Dir [ ("a.jpg", Fixtures.png_ok); ("c.txt", Fixtures.garbage) ]
                       [ ("raw", Cleanup.Dir [ ("b.PNG", Fixtures.png_ok) ] []) ]))
  = (Some (Cleanup.Dir [ ("a.jpg", Fixtures.png_ok); ("c.txt", Fixtures.garbage) ]
                       [ ("raw", Cleanup.Dir [ ("b.PNG", Fixtures.png_ok) ] []) ]),
     [ (nl ++ "Cleanup complete. Scanned 3 files.")%string;
       "No corrupted files were found." ]%list,
     None).
Proof.
  apply (X8_clean_dataset_untouched Fixtures.F0 Fixtures.verify0
           Fixtures.ascii_stdout Fixtures.remove_denied "data"
           (Cleanup.Dir [ ("a.jpg", Fixtures.png_ok); ("c.txt", Fixtures.garbage) ]
                        [ ("raw", Cleanup.Dir [ ("b.PNG", Fixtures.png_ok) ] []) ])).
  intros dirpath file data Hin Hext. simpl in Hin.
  repeat (destruct Hin as [Heq | Hin];
          [injection Heq as <- <- <-; first [reflexivity | discriminate] |]).
  contradiction.
Defined.

(** X9. A cleanup that came to its end is not undone or repeated by a
    second one: run again on the tree it left, the cleanup removes
    nothing, returns that tree unchanged without an exception, and reports
    that no corrupted file was found. *)
Theorem X9_cleanup_is_idempotent :
  forall F verify print_removal os_remove root_dir d d' out,
    Cleanup.cleanup_corrupt_images F verify print_removal os_remove
      root_dir (Some d)
    = (Some d', out, None) ->
    Cleanup.cleanup_corrupt_images F verify print_removal os_remove
      root_dir (Some d')
    = (Some d',
       [ (nl ++ "Cleanup complete. Scanned "
          ++ str_of_nat (List.length (Cleanup.listing root_dir d'))
          ++ " files.")%string;
         "No corrupted files were found." ]%list,
       None).
Proof.
  intros F verify pr rm root_dir d d' out Hfirst.
  apply cleanup_of_clean_tree.
  destruct (cleanup_run F verify pr rm root_dir d)
    as (d1 & p & raised & out1 & Hwalk & Hrun & _).
  rewrite Hfirst in Hrun. injection Hrun as -> _ <-.
  destruct (walk_runs F verify pr rm d root_dir
              {| Cleanup.total_files := 0; Cleanup.corrupted_count := 0;
                 Cleanup.printed := [] |}) as (Hflat & _).
  rewrite Hwalk in Hflat.
  destruct (run_over_outcome F verify pr rm _ _ _ _ _ Hflat)
    as (passed & rest & _ & HL' & _ & (-> & _)).
  intros entry Hin. rewrite HL', app_nil_r in Hin.
  apply filter_In in Hin. apply Hin.
Qed.

Lemma X9_cleanup_is_idempotent_witness :
  Cleanup.cleanup_corrupt_images Fixtures.F0 Fixtures.verify0
    Fixtures.any_stdout Fixtures.remove_ok "data"
    (Some (Cleanup.Dir
             [ ("README.md", Fixtures.garbage) ]
             [ ("Stage1", Cleanup.Dir [ ("a.jpg", Fixtures.png_ok);
                                        ("c.txt", Fixtures.garbage) ] []);
               ("Stage2", Cleanup.Dir []
                            [ ("raw", Cleanup.Dir
                                        [ ("e.jpg.bak", Fixtures.garbage) ] []) ]) ]))
  = (Some (Cleanup.Dir
             [ ("README.md", Fixtures.garbage) ]
             [ ("Stage1", Cleanup.Dir [ ("a.jpg", Fixtures.png_ok);
                                        ("c.txt", Fixtures.garbage) ] []);
               ("Stage2", Cleanup.Dir []
                            [ ("raw", Cleanup.Dir
                                        [ ("e.jpg.bak", Fixtures.garbage) ] []) ]) ]),
     [ (nl ++ "Cleanup complete. Scanned 4 files.")%string;
       "No corrupted files were found." ]%list,
     None).
Proof.
  apply (X9_cleanup_is_idempotent Fixtures.F0 Fixtures.verify0
           Fixtures.any_stdout Fixtures.remove_ok "data" Fixtures.dataset
           (Cleanup.Dir
              [ ("README.md", Fixtures.garbage) ]
              [ ("Stage1", Cleanup.Dir [ ("a.jpg", Fixtures.png_ok);
                                         ("c.txt", Fixtures.garbage) ] []);
                ("Stage2", Cleanup.Dir []
                             [ ("raw", Cleanup.Dir
                                         [ ("e.jpg.bak", Fixtures.garbage) ] []) ]) ])
           [ "Removing corrupted file: data/cover.PNG - Error: cannot identify image file";
             "Removing corrupted file: data/Stage1/b.JPeG - Error: cannot identify image file";
             "Removing corrupted file: data/Stage2/d.png - Error: cannot identify image file";
             (nl ++ "Cleanup complete. Scanned 7 files.")%string;
             "Removed 3 corrupted files." ]%list).
  vm_compute. reflexivity.
Defined.

Lemma scan_files_same_answers F verify1 verify2 pr rm root :
  forall files p,
    (forall file data,
        In (file, data) files ->
        Cleanup.has_valid_extension file = true ->
        verify1 (Cleanup.path_join root file) data
        = verify2 (Cleanup.path_join root file) data) ->
    Cleanup.scan_files F verify1 pr rm root files p
    = Cleanup.scan_files F verify2 pr rm root files p.
Proof.
  induction files as [| [file data] rest IH]; intros p Hsame; [reflexivity |].
  assert (Hrest : forall q,
             Cleanup.scan_files F verify1 pr rm root rest q
             = Cleanup.scan_files F verify2 pr rm root rest q).
  { intros q. apply IH. intros f d Hin. apply Hsame. right. assumption. }
  cbn [Cleanup.scan_files].
  destruct (Cleanup.endswith_any (Cleanup.lower file) Cleanup.valid_extensions)
    eqn:Hext.
  - rewrite <- (Hsame file data (or_introl eq_refl) Hext).
    destruct (verify1 (Cleanup.path_join root file) data);
      rewrite ?Hrest; reflexivity.
  - rewrite Hrest. reflexivity.
Qed.

Lemma walk_same_answers F verify1 verify2 pr rm :
  forall d root p,
    (forall dirpath file data,
        In (dirpath, file, data) (Cleanup.listing root d) ->
        Cleanup.has_valid_extension file = true ->
        verify1 (Cleanup.path_join dirpath file) data
        = verify2 (Cleanup.path_join dirpath file) data) ->
    Cleanup.walk F verify1 pr rm root d p = Cleanup.walk F verify2 pr rm root d p.
Proof.
  induction d as [files subdirs IHsub] using dir_induction.
  intros root p Hsame. rewrite listing_unfold in Hsame.
  rewrite !walk_unfold.
  rewrite (scan_files_same_answers F verify1 verify2 pr rm root files p).
  2:{ intros file data Hin. apply Hsame. apply in_or_app. left.
      apply (in_map (fun fd => (root, fst fd, snd fd)) files (file, data) Hin). }
  destruct (Cleanup.scan_files F verify2 pr rm root files p)
    as [[files' p1] [e |]]; [reflexivity |].
  assert (Heach : forall q,
             walk_each F verify1 pr rm root subdirs q
             = walk_each F verify2 pr rm root subdirs q).
  { assert (Hsub : forall dirpath file data,
               In (dirpath, file, data) (listing_each root subdirs) ->
               Cleanup.has_valid_extension file = true ->
               verify1 (Cleanup.path_join dirpath file) data
               = verify2 (Cleanup.path_join dirpath file) data).
    { intros dirpath file data Hin. apply Hsame. apply in_or_app. right.
      assumption. }
    clear Hsame.
    induction IHsub as [| [name sub] subdirs Hone _ IH]; intros q;
      [reflexivity |].
    cbn [walk_each]. cbn [snd] in Hone.
    cbn [listing_each] in Hsub. fold (listing_each root) in Hsub.
    fold (walk_each F verify1 pr rm root). fold (walk_each F verify2 pr rm root).
    rewrite (Hone (Cleanup.path_join root name) q).
    2:{ intros dirpath file data Hin. apply Hsub. apply in_or_app. left.
        assumption. }
    destruct (Cleanup.walk F verify2 pr rm (Cleanup.path_join root name) sub q)
      as [[sub' q'] [e |]]; [reflexivity |].
    rewrite IH; [reflexivity |].
    intros dirpath file data Hin. apply Hsub. apply in_or_app. right.
    assumption. }
  rewrite Heach. reflexivity.
Qed.

(** X10. Only files with an image extension are ever opened: the outcome
    of the cleanup (the tree it leaves, everything it prints and how it
    ends) is the same for two verifiers that agree on the image-named
    files of the tree, however they differ on the other files. *)
Theorem X10_other_files_are_not_examined :
  forall F verify1 verify2 print_removal os_remove root_dir d,
    (forall dirpath file data,
        In (dirpath, file, data) (Cleanup.listing root_dir d) ->
        Cleanup.has_valid_extension file = true ->
        verify1 (Cleanup.path_join dirpath file) data
        = verify2 (Cleanup.path_join dirpath file) data) ->
    Cleanup.cleanup_corrupt_images F verify1 print_removal os_remove
      root_dir (Some d)
    = Cleanup.cleanup_corrupt_images F verify2 print_removal os_remove
        root_dir (Some d).
Proof.
  intros F verify1 verify2 pr rm root_dir d Hsame.
  unfold Cleanup.cleanup_corrupt_images.
  rewrite (walk_same_answers F verify1 verify2 pr rm d root_dir _ Hsame).
  reflexivity.
Qed.

Lemma X10_other_files_are_not_examined_witness :
  verify_images_only "data/README.md" Fixtures.garbage
  <> Fixtures.verify0 "data/README.md" Fixtures.garbage
  /\ Cleanup.cleanup_corrupt_images Fixtures.F0 Fixtures.verify0
       Fixtures.any_stdout Fixtures.remove_ok "data" (Some Fixtures.dataset)
     = Cleanup.cleanup_corrupt_images Fixtures.F0 verify_images_only
         Fixtures.any_stdout Fixtures.remove_ok "data" (Some Fixtures.dataset).
Proof.
  split; [discriminate |].
  apply (X10_other_files_are_not_examined Fixtures.F0 Fixtures.verify0
           verify_images_only Fixtures.any_stdout Fixtures.remove_ok
           "data" Fixtures.dataset).
  intros dirpath file data Hin Hext. simpl in Hin.
  repeat (destruct Hin as [Heq | Hin];
          [injection Heq as <- <- <-;
           first [reflexivity | vm_compute in Hext; discriminate] |]).
  contradiction.
Defined.
